(** * hipe-features: windowed feature extraction on power-sensor readings

    A shallow embedding of [src/main.py], [src/custom_features.py] and
    [src/config.py], and the properties of the window assigner, the
    machine-state filter and the custom feature calculators.

    Conventions of the embedding:
    - a Python [str] is a [string] (the data set's timestamps are ASCII);
    - a pandas [Series] is a [list], a [DataFrame] a list of column labels
      with a list of rows;
    - a Python [float] (numpy [float64]) is a primitive binary64 [float];
    - a function that may raise returns a [result]. *)

From Stdlib Require Import ZArith Lia ZifyBool Bool Ascii String Floats DecimalString.
From stdpp Require Import base list strings gmap.

Local Open Scope string_scope.
Local Open Scope Z_scope.

(* Decimal literals such as 0.3 stand for the nearest binary64 value, as in Python. *)
Set Warnings "-inexact-float".

(** ** Exceptions *)

(** A [KeyError] carries the labels it names: the key of a failed lookup,
    or every label of a list of labels that was not found. *)
Inductive exn : Type :=
  | NotImplementedError (msg : string)
  | ValueError
  | KeyError (labels : gset string)
  | TypeError.

Inductive result (A : Type) : Type :=
  | Ok (a : A)
  | Raise (e : exn).

Arguments Ok {A} a.
Arguments Raise {A} e.

#[global] Instance result_ret : MRet result := fun _ a => Ok a.

#[global] Instance result_bind : MBind result := fun _ _ k r =>
  match r with
  | Ok a => k a
  | Raise e => Raise e
  end.

Definition is_ok {A} (r : result A) : bool :=
  match r with Ok _ => true | Raise _ => false end.

(** [Series.apply f]: [f] on every element, left to right; the first
    exception ends the call. *)
Fixpoint series_apply {A B} (f : A -> result B) (xs : list A) : result (list B) :=
  match xs with
  | [] => Ok []
  | x :: xs' => y ← f x; ys ← series_apply f xs'; Ok (y :: ys)
  end.

(** ** Python strings *)

Module PyStr.

(** An index of a slice, brought into [0, len]. *)
Definition norm_index (len i : Z) : Z :=
  if i <? 0 then Z.max 0 (i + len) else Z.min i len.

(** [s[lo:hi]], with [None] for an omitted bound. *)
Definition slice (s : string) (lo hi : option Z) : string :=
  let len := Z.of_nat (String.length s) in
  let a := match lo with None => 0 | Some i => norm_index len i end in
  let b := match hi with None => len | Some i => norm_index len i end in
  substring (Z.to_nat a) (Z.to_nat (b - a)) s.

Definition code (c : ascii) : Z := Z.of_N (N_of_ascii c).

Definition is_digit (c : ascii) : bool := (48 <=? code c) && (code c <=? 57).

Definition digit_value (c : ascii) : Z := code c - 48.

(** The blanks [int] skips around the number in an ASCII string: tab,
    line feed, vertical tab, form feed, carriage return and the space. *)
Definition is_space (c : ascii) : bool :=
  ((9 <=? code c) && (code c <=? 13)) || (code c =? 32).

Fixpoint lstrip (l : list ascii) : list ascii :=
  match l with
  | c :: l' => if is_space c then lstrip l' else l
  | [] => []
  end.

Definition strip (l : list ascii) : list ascii := rev (lstrip (rev (lstrip l))).

(** Decimal digits, a single underscore allowed between two digits. *)
Fixpoint int_digits (acc : Z) (after_digit : bool) (l : list ascii) : option Z :=
  match l with
  | [] => if after_digit then Some acc else None
  | c :: l' =>
      if is_digit c then int_digits (10 * acc + digit_value c) true l'
      else if Ascii.eqb c "_" && after_digit then int_digits acc false l'
      else None
  end.

(** [int(s)] in base ten. *)
Definition int (s : string) : result Z :=
  let body := strip (list_ascii_of_string s) in
  let parsed :=
    match body with
    | c :: rest =>
        if Ascii.eqb c "-" then option_map Z.opp (int_digits 0 false rest)
        else if Ascii.eqb c "+" then int_digits 0 false rest
        else int_digits 0 false body
    | [] => None
    end in
  match parsed with
  | Some v => Ok v
  | None => Raise ValueError
  end.

Fixpoint zeros (n : nat) : string :=
  match n with
  | O => ""
  | S n' => String "0" (zeros n')
  end.

(** [format(v, '02d')]: the sign, then the digits padded with zeros to
    a total width of two. *)
Definition format_02d (v : Z) : string :=
  let digits := NilZero.string_of_uint (N.to_uint (Z.to_N (Z.abs v))) in
  let sign := if v <? 0 then "-" else "" in
  let width := (2 - String.length sign)%nat in
  sign ++ zeros (width - String.length digits) ++ digits.

(** [s1 <= s2], the order of the code points. *)
Definition le (s1 s2 : string) : Prop := String.leb s1 s2 = true.

End PyStr.

(** [x[:n]] is [slice x None (Some n)], [x[-3:]] is
    [slice x (Some (-3)) None], [x[a:b]] is [slice x (Some a) (Some b)]. *)
Import PyStr (slice).

(** ** config.py *)

Definition DATE_COLUMN : string := "SensorDateTime".
Definition DATE_CHANGE_WINTER : string := "2017-10-29T00:00:00.000+02".

(** ** main.py: the window assigner *)

(** [Series.replace({old: new})]. *)
Definition series_replace (old new : string) (xs : list string) : list string :=
  map (fun x => if String.eqb x old then new else x) xs.

Definition calc_aggregation_datetime (datetimes : list string) (aggregation : string)
  : result (list string) :=
  if String.eqb aggregation "minute" then
    series_apply (fun x => Ok (slice x None (Some 16) ++ ":00.000" ++ slice x (Some (-3)) None)) datetimes
  else if String.eqb aggregation "10minutes" then
    series_apply (fun x => Ok (slice x None (Some 15) ++ "0:00.000" ++ slice x (Some (-3)) None)) datetimes
  else if String.eqb aggregation "15minutes" then
    series_apply (fun x =>
      m ← PyStr.int (slice x (Some 14) (Some 16));
      Ok (slice x None (Some 14) ++ (PyStr.format_02d (m / 15 * 15) ++ ":00.000") ++ slice x (Some (-3)) None)) datetimes
  else if String.eqb aggregation "1hour" then
    series_apply (fun x => Ok (slice x None (Some 13) ++ ":00:00.000" ++ slice x (Some (-3)) None)) datetimes
  else if String.eqb aggregation "1day" then
    result ← series_apply (fun x => Ok (slice x None (Some 11) ++ "00:00:00.000" ++ slice x (Some (-3)) None)) datetimes;
    Ok (series_replace (slice DATE_CHANGE_WINTER None (Some (-1)) ++ "1") DATE_CHANGE_WINTER result)
  else
    Raise (NotImplementedError ("Unsupported aggregation level '" ++ aggregation ++ "'.")).

(** The window identifier of one timestamp: the call on the series that
    holds just this timestamp. *)
Definition assign_window (t : string) (aggregation : string) : result string :=
  ws ← calc_aggregation_datetime [t] aggregation;
  match ws with
  | w :: _ => Ok w
  | [] => Raise ValueError
  end.

Example assign_window_15_a :
  assign_window "2017-10-01T00:07:23.500+02" "15minutes" = Ok "2017-10-01T00:00:00.000+02".
Proof. reflexivity. Qed.

Example assign_window_15_b :
  assign_window "2017-10-01T00:17:00.000+02" "15minutes" = Ok "2017-10-01T00:15:00.000+02".
Proof. reflexivity. Qed.

Example assign_window_day_dst :
  assign_window "2017-10-29T02:30:00.000+01" "1day" = Ok "2017-10-29T00:00:00.000+02".
Proof. reflexivity. Qed.

(** ** The calendar of Python's [datetime] *)

Module Calendar.

Definition is_leap (year : Z) : bool :=
  (year mod 4 =? 0) && (negb (year mod 100 =? 0) || (year mod 400 =? 0)).

Definition days_before_year (year : Z) : Z :=
  let y := year - 1 in
  y * 365 + y / 4 - y / 100 + y / 400.

Definition days_in_month (year month : Z) : Z :=
  match month with
  | 1 => 31 | 2 => if is_leap year then 29 else 28 | 3 => 31 | 4 => 30
  | 5 => 31 | 6 => 30 | 7 => 31 | 8 => 31 | 9 => 30 | 10 => 31 | 11 => 30
  | _ => 31
  end.

Definition days_before_month (year month : Z) : Z :=
  match month with
  | 1 => 0 | 2 => 31 | 3 => 59 | 4 => 90 | 5 => 120 | 6 => 151 | 7 => 181
  | 8 => 212 | 9 => 243 | 10 => 273 | 11 => 304 | _ => 334
  end + (if (2 <? month) && is_leap year then 1 else 0).

(** [date(year, month, day).toordinal()]: 0001-01-01 is day 1. *)
Definition ymd2ord (year month day : Z) : Z :=
  days_before_year year + days_before_month year month + day.

(** [date.weekday()]: Monday is 0. *)
Definition weekday (year month day : Z) : Z :=
  (ymd2ord year month day + 6) mod 7.

End Calendar.

(** ** The fixed-width timestamp format [YYYY-MM-DDTHH:MM:SS.mmm+HH] *)

Module Timestamp.

Import PyStr.

(** The twenty characters between the separators. *)
Record layout : Type := Layout {
  Y1 : ascii; Y2 : ascii; Y3 : ascii; Y4 : ascii;
  M1 : ascii; M2 : ascii;
  D1 : ascii; D2 : ascii;
  H1 : ascii; H2 : ascii;
  N1 : ascii; N2 : ascii;
  S1 : ascii; S2 : ascii;
  L1 : ascii; L2 : ascii; L3 : ascii;
  SG : ascii; O1 : ascii; O2 : ascii
}.

Definition render (l : layout) : string :=
  string_of_list_ascii
    [Y1 l; Y2 l; Y3 l; Y4 l; "-"; M1 l; M2 l; "-"; D1 l; D2 l; "T";
     H1 l; H2 l; ":"; N1 l; N2 l; ":"; S1 l; S2 l; "."; L1 l; L2 l; L3 l;
     SG l; O1 l; O2 l]%char.

Definition scan (s : string) : option layout :=
  match list_ascii_of_string s with
  | [y1; y2; y3; y4; p1; m1; m2; p2; d1; d2; p3; h1; h2; p4; n1; n2; p5;
     s1; s2; p6; l1; l2; l3; sg; o1; o2] =>
      if String.eqb (string_of_list_ascii [p1; p2; p3; p4; p5; p6]) "--T::."
      then Some (Layout y1 y2 y3 y4 m1 m2 d1 d2 h1 h2 n1 n2 s1 s2 l1 l2 l3 sg o1 o2)
      else None
  | _ => None
  end.

Definition digits_of (l : layout) : list ascii :=
  [Y1 l; Y2 l; Y3 l; Y4 l; M1 l; M2 l; D1 l; D2 l; H1 l; H2 l; N1 l; N2 l;
   S1 l; S2 l; L1 l; L2 l; L3 l; O1 l; O2 l].

Definition digits_ok (l : layout) : bool :=
  forallb is_digit (digits_of l) && (Ascii.eqb (SG l) "+" || Ascii.eqb (SG l) "-").

Definition num2 (a b : ascii) : Z := 10 * digit_value a + digit_value b.

(** The point in time a timestamp denotes. *)
Record datetime : Type := Datetime {
  year : Z; month : Z; day : Z;
  hour : Z; minute : Z; second : Z; millisecond : Z;
  utcoffset : Z  (* hours east of UTC *)
}.

Definition fields_of (l : layout) : datetime :=
  {| year := 100 * num2 (Y1 l) (Y2 l) + num2 (Y3 l) (Y4 l);
     month := num2 (M1 l) (M2 l);
     day := num2 (D1 l) (D2 l);
     hour := num2 (H1 l) (H2 l);
     minute := num2 (N1 l) (N2 l);
     second := num2 (S1 l) (S2 l);
     millisecond := 100 * digit_value (L1 l) + num2 (L2 l) (L3 l);
     utcoffset := (if Ascii.eqb (SG l) "-" then -1 else 1) * num2 (O1 l) (O2 l) |}.

Definition parse (s : string) : option datetime :=
  match scan s with
  | Some l => if digits_ok l then Some (fields_of l) else None
  | None => None
  end.

(** The ranges [datetime] accepts. *)
Definition well_formed (d : datetime) : bool :=
  (1 <=? year d) && (1 <=? month d) && (month d <=? 12)
  && (1 <=? day d) && (day d <=? Calendar.days_in_month (year d) (month d))
  && (hour d <=? 23) && (minute d <=? 59) && (second d <=? 59)
  && (Z.abs (utcoffset d) <=? 23).

Definition valid_timestamp (s : string) : bool :=
  match parse s with
  | Some d => well_formed d
  | None => false
  end.

(** Milliseconds since the start of day 0 of the calendar, in UTC. *)
Definition instant (d : datetime) : Z :=
  (((Calendar.ymd2ord (year d) (month d) (day d) * 24 + hour d - utcoffset d) * 60
    + minute d) * 60 + second d) * 1000 + millisecond d.

(** [t1] is chronologically earlier than or equal to [t2]. *)
Definition chrono_le (t1 t2 : string) : Prop :=
  match parse t1, parse t2 with
  | Some d1, Some d2 => instant d1 <= instant d2
  | _, _ => False
  end.

(** The digits of the local date and time read as one number. *)
Definition stamp (d : datetime) : Z :=
  (((((year d * 100 + month d) * 100 + day d) * 100 + hour d) * 100
     + minute d) * 100 + second d) * 1000 + millisecond d.

End Timestamp.

Import Timestamp.

Example valid_example : valid_timestamp "2017-10-01T00:07:23.500+02" = true.
Proof. reflexivity. Qed.

Example invalid_example : valid_timestamp "2017-02-29T00:07:23.500+02" = false.
Proof. reflexivity. Qed.

Example chrono_dst :
  chrono_le "2017-10-29T02:30:00.000+02" "2017-10-29T02:10:00.000+01".
Proof. vm_compute. discriminate. Qed.

(** ** Properties of the format *)

Section Format.

Import PyStr.

Lemma scan_render (s : string) (l : layout) : scan s = Some l -> s = render l.
Proof.
  unfold scan. rewrite <- (string_of_list_ascii_of_string s) at 2.
  generalize (list_ascii_of_string s) as cs. intros cs H.
  do 26 (destruct cs as [|? cs]; [discriminate H|]).
  destruct cs; [|discriminate H].
  match type of H with (if ?b then _ else _) = _ => destruct b eqn:Hsep end;
    [|discriminate H].
  apply String.eqb_eq in Hsep. injection Hsep as -> -> -> -> -> ->.
  injection H as <-. reflexivity.
Qed.

Lemma scan_of_render (l : layout) : scan (render l) = Some l.
Proof. destruct l. reflexivity. Qed.

Lemma valid_timestamp_inv (s : string) :
  valid_timestamp s = true ->
  exists l, s = render l /\ digits_ok l = true /\ well_formed (fields_of l) = true.
Proof.
  unfold valid_timestamp, parse. destruct (scan s) as [l|] eqn:Hscan; [|discriminate].
  destruct (digits_ok l) eqn:Hd; [|discriminate].
  intros Hwf. exists l. auto using scan_render.
Qed.

Lemma parse_render (l : layout) :
  digits_ok l = true -> parse (render l) = Some (fields_of l).
Proof. intros H. unfold parse. rewrite scan_of_render, H. reflexivity. Qed.

Lemma valid_timestamp_render (l : layout) :
  digits_ok l = true -> well_formed (fields_of l) = true ->
  valid_timestamp (render l) = true.
Proof. intros Hd Hwf. unfold valid_timestamp. rewrite parse_render; assumption. Qed.

End Format.

(** ** The supported aggregation levels *)

Inductive granularity : Type := Minute | Minutes10 | Minutes15 | Hour1 | Day1.

Definition aggregation_of (g : granularity) : string :=
  match g with
  | Minute => "minute"
  | Minutes10 => "10minutes"
  | Minutes15 => "15minutes"
  | Hour1 => "1hour"
  | Day1 => "1day"
  end.

Definition supported (aggregation : string) : Prop :=
  exists g, aggregation = aggregation_of g.

(** ** The shape of a window identifier *)

Section WindowShape.

Import PyStr.

Definition digit_char (n : Z) : ascii := ascii_of_N (Z.to_N (48 + n)).

(** The layout [l] with its time of day replaced, seconds and
    milliseconds zero. *)
Definition with_time (l : layout) (h1 h2 n1 n2 : ascii) : layout :=
  Layout (Y1 l) (Y2 l) (Y3 l) (Y4 l) (M1 l) (M2 l) (D1 l) (D2 l)
         h1 h2 n1 n2 "0" "0" "0" "0" "0" (SG l) (O1 l) (O2 l).

Definition winter_layout : layout :=
  Layout "2" "0" "1" "7" "1" "0" "2" "9" "0" "0" "0" "0" "0" "0" "0" "0" "0" "+" "0" "2".

Definition window_layout (g : granularity) (l : layout) : layout :=
  match g with
  | Minute => with_time l (H1 l) (H2 l) (N1 l) (N2 l)
  | Minutes10 => with_time l (H1 l) (H2 l) (N1 l) "0"
  | Minutes15 =>
      let m := num2 (N1 l) (N2 l) / 15 * 15 in
      with_time l (H1 l) (H2 l) (digit_char (m / 10)) (digit_char (m mod 10))
  | Hour1 => with_time l (H1 l) (H2 l) "0" "0"
  | Day1 =>
      let l0 := with_time l "0" "0" "0" "0" in
      if String.eqb (render l0) "2017-10-29T00:00:00.000+01" then winter_layout else l0
  end.

Lemma digit_cases (c : ascii) :
  is_digit c = true -> In c ["0"; "1"; "2"; "3"; "4"; "5"; "6"; "7"; "8"; "9"]%char.
Proof.
  destruct c as [[] [] [] [] [] [] [] []]; intros H;
    solve [discriminate H | simpl; auto 12].
Qed.

Ltac digit_split H :=
  apply digit_cases in H; simpl in H;
  repeat (destruct H as [<-|H]; [|]); [..|contradiction H].

Lemma assign_window_minute (l : layout) :
  assign_window (render l) "minute" = Ok (render (window_layout Minute l)).
Proof. destruct l. vm_compute. reflexivity. Qed.

Lemma assign_window_10minutes (l : layout) :
  assign_window (render l) "10minutes" = Ok (render (window_layout Minutes10 l)).
Proof. destruct l. vm_compute. reflexivity. Qed.

Lemma assign_window_1hour (l : layout) :
  assign_window (render l) "1hour" = Ok (render (window_layout Hour1 l)).
Proof. destruct l. vm_compute. reflexivity. Qed.

Lemma assign_window_15minutes (l : layout) :
  is_digit (N1 l) = true -> is_digit (N2 l) = true ->
  assign_window (render l) "15minutes" = Ok (render (window_layout Minutes15 l)).
Proof.
  destruct l. cbn [N1 N2]. intros Ha Hb.
  digit_split Ha; digit_split Hb; vm_compute; reflexivity.
Qed.

Lemma assign_window_1day_eq (t : string) :
  assign_window t "1day" =
  Ok (let w := (slice t None (Some 11) ++ "00:00:00.000" ++ slice t (Some (-3)) None)%string in
      if String.eqb w "2017-10-29T00:00:00.000+01" then DATE_CHANGE_WINTER else w).
Proof. reflexivity. Qed.

Lemma assign_window_1day (l : layout) :
  assign_window (render l) "1day" = Ok (render (window_layout Day1 l)).
Proof.
  rewrite assign_window_1day_eq. unfold window_layout. cbv zeta.
  assert (E : (slice (render l) None (Some 11) ++ "00:00:00.000"
               ++ slice (render l) (Some (-3)) None)%string
              = render (with_time l "0" "0" "0" "0"))
    by (destruct l; vm_compute; reflexivity).
  rewrite E. destruct (String.eqb _ _); reflexivity.
Qed.

(** Every supported level gives a valid timestamp the window whose
    layout is [window_layout]. *)
Lemma assign_window_layout (g : granularity) (l : layout) :
  digits_ok l = true ->
  assign_window (render l) (aggregation_of g) = Ok (render (window_layout g l)).
Proof.
  intros Hd. destruct g; cbn [aggregation_of];
    auto using assign_window_minute, assign_window_10minutes,
               assign_window_1hour, assign_window_1day.
  unfold digits_ok, digits_of in Hd. cbn [forallb] in Hd.
  repeat (apply andb_prop in Hd; destruct Hd as [? Hd]).
  repeat match goal with H : (_ && _) = true |- _ => apply andb_prop in H; destruct H end.
  apply assign_window_15minutes; assumption.
Qed.

Lemma is_digit_range (c : ascii) : is_digit c = true -> 0 <= digit_value c <= 9.
Proof. unfold is_digit, digit_value. lia. Qed.

Lemma digit_char_ok (n : Z) :
  0 <= n <= 9 -> is_digit (digit_char n) = true /\ digit_value (digit_char n) = n.
Proof.
  intros H. assert (E : In n [0; 1; 2; 3; 4; 5; 6; 7; 8; 9]) by (simpl; lia).
  simpl in E. repeat (destruct E as [<-|E]; [split; reflexivity|]). contradiction E.
Qed.

Lemma well_formed_iff (d : datetime) :
  well_formed d = true <->
  1 <= year d /\ 1 <= month d <= 12
  /\ 1 <= day d <= Calendar.days_in_month (year d) (month d)
  /\ hour d <= 23 /\ minute d <= 59 /\ second d <= 59 /\ Z.abs (utcoffset d) <= 23.
Proof. unfold well_formed. lia. Qed.

Lemma digits_ok_iff (l : layout) :
  digits_ok l = true <->
  Forall (fun c => is_digit c = true) (digits_of l) /\ (SG l = "+" \/ SG l = "-")%char.
Proof.
  unfold digits_ok. rewrite andb_true_iff, orb_true_iff, !Ascii.eqb_eq, forallb_forall.
  rewrite List.Forall_forall. reflexivity.
Qed.

Lemma fields_of_with_time (l : layout) (h1 h2 n1 n2 : ascii) :
  fields_of (with_time l h1 h2 n1 n2) =
  {| year := year (fields_of l); month := month (fields_of l); day := day (fields_of l);
     hour := num2 h1 h2; minute := num2 n1 n2; second := 0; millisecond := 0;
     utcoffset := utcoffset (fields_of l) |}.
Proof. reflexivity. Qed.

Lemma digits_ok_with_time (l : layout) (h1 h2 n1 n2 : ascii) :
  digits_ok l = true ->
  is_digit h1 = true -> is_digit h2 = true -> is_digit n1 = true -> is_digit n2 = true ->
  digits_ok (with_time l h1 h2 n1 n2) = true.
Proof.
  rewrite !digits_ok_iff. unfold digits_of. cbn [with_time Y1 Y2 Y3 Y4 M1 M2 D1 D2 H1 H2 N1 N2 S1 S2 L1 L2 L3 SG O1 O2].
  intros [HF Hs] ? ? ? ?. split; [|exact Hs].
  repeat match goal with H : Forall _ (_ :: _) |- _ => apply Forall_cons_1 in H; destruct H end.
  repeat (constructor; [solve [assumption | reflexivity]|]). constructor.
Qed.

Ltac digit_facts H :=
  let HF := fresh "HF" in
  let Hs := fresh "Hsign" in
  apply digits_ok_iff in H; destruct H as [HF Hs]; unfold digits_of in HF;
  repeat match goal with
         | H : Forall _ (_ :: _) |- _ => apply Forall_cons_1 in H; destruct H
         | H : Forall _ [] |- _ => clear H
         end.

Lemma floor15_digits (a b : ascii) :
  is_digit a = true -> is_digit b = true ->
  let m := num2 a b / 15 * 15 in
  is_digit (digit_char (m / 10)) = true /\ is_digit (digit_char (m mod 10)) = true
  /\ num2 (digit_char (m / 10)) (digit_char (m mod 10)) = m.
Proof.
  intros Ha Hb m. apply is_digit_range in Ha, Hb.
  assert (Hm : 0 <= m / 10 <= 9 /\ 0 <= m mod 10 <= 9) by (unfold m, num2; Z.to_euclidean_division_equations; lia).
  destruct Hm as [H1 H2].
  destruct (digit_char_ok _ H1) as [? E1], (digit_char_ok _ H2) as [? E2].
  repeat split; try assumption. unfold num2. rewrite E1, E2. Z.to_euclidean_division_equations; lia.
Qed.

Lemma window_digits_ok (g : granularity) (l : layout) :
  digits_ok l = true -> digits_ok (window_layout g l) = true.
Proof.
  intros Hd. pose proof Hd as Hd'. digit_facts Hd'.
  assert (Hz : is_digit "0" = true) by reflexivity.
  destruct g; unfold window_layout.
  - apply digits_ok_with_time; assumption.
  - apply digits_ok_with_time; assumption.
  - destruct (floor15_digits (N1 l) (N2 l)) as (? & ? & _); try assumption.
    apply digits_ok_with_time; assumption.
  - apply digits_ok_with_time; assumption.
  - cbv zeta. destruct (String.eqb _ _); [reflexivity|].
    apply digits_ok_with_time; assumption.
Qed.

Lemma window_well_formed (g : granularity) (l : layout) :
  digits_ok l = true -> well_formed (fields_of l) = true ->
  well_formed (fields_of (window_layout g l)) = true.
Proof.
  intros Hd Hwf. pose proof Hd as Hd'. digit_facts Hd'.
  pose proof (floor15_digits (N1 l) (N2 l)) as Hfloor.
  cbv zeta in Hfloor. destruct Hfloor as (_ & _ & Hfloor); try assumption.
  repeat match goal with H : is_digit _ = true |- _ => apply is_digit_range in H end.
  apply well_formed_iff in Hwf.
  change (hour (fields_of l)) with (num2 (H1 l) (H2 l)) in Hwf.
  change (minute (fields_of l)) with (num2 (N1 l) (N2 l)) in Hwf.
  destruct g; unfold window_layout; cbv zeta;
    try (destruct (String.eqb _ _); [reflexivity|]);
    rewrite fields_of_with_time; apply well_formed_iff;
    cbn [year month day hour minute second millisecond utcoffset];
    rewrite ?Hfloor; unfold num2 in *; change (digit_value "0") with 0;
    Z.to_euclidean_division_equations; lia.
Qed.

(** What a window keeps of its timestamp: the date, and the offset
    unless the window is the one of the day the clocks change. *)
Lemma window_layout_date (g : granularity) (l : layout) :
  slice (render (window_layout g l)) None (Some 10) = slice (render l) None (Some 10).
Proof.
  destruct l. destruct g; unfold window_layout; cbv zeta; try reflexivity.
  match goal with |- context [String.eqb ?a ?b] => destruct (String.eqb_spec a b) as [E|E] end;
    [injection E as -> -> -> -> -> -> -> -> -> -> ->|]; reflexivity.
Qed.

Lemma with_time_with_time (l : layout) (h1 h2 n1 n2 h1' h2' n1' n2' : ascii) :
  with_time (with_time l h1 h2 n1 n2) h1' h2' n1' n2' = with_time l h1' h2' n1' n2'.
Proof. reflexivity. Qed.

Lemma floor15_floor15 (m : Z) : m / 15 * 15 / 15 * 15 = m / 15 * 15.
Proof. Z.to_euclidean_division_equations; lia. Qed.

Lemma window_layout_idempotent (g : granularity) (l : layout) :
  digits_ok l = true -> window_layout g (window_layout g l) = window_layout g l.
Proof.
  intros Hd. destruct g; unfold window_layout; cbv zeta; try reflexivity.
  - digit_facts Hd.
    destruct (floor15_digits (N1 l) (N2 l)) as (_ & _ & E); try assumption.
    cbv zeta in E. cbn [with_time N1 N2 H1 H2]. rewrite E, floor15_floor15.
    reflexivity.
  - destruct (String.eqb (render (with_time l "0" "0" "0" "0")) _) eqn:E.
    + reflexivity.
    + rewrite with_time_with_time, E. reflexivity.
Qed.

(** C5. Assigning a window is idempotent: for each of the five
    aggregation levels and every valid fixed-width timestamp [t], the
    window identifier of [t] exists and is its own window identifier. *)
Theorem assign_window_idempotent (g : granularity) (t : string) :
  valid_timestamp t = true ->
  exists w, assign_window t (aggregation_of g) = Ok w
            /\ assign_window w (aggregation_of g) = Ok w.
Proof.
  intros Hv. destruct (valid_timestamp_inv t Hv) as (l & -> & Hd & _).
  exists (render (window_layout g l)). split.
  - apply assign_window_layout, Hd.
  - rewrite assign_window_layout by (apply window_digits_ok, Hd).
    rewrite window_layout_idempotent by exact Hd. reflexivity.
Qed.

Lemma assign_window_idempotent_witness :
  exists w, assign_window "2017-10-29T02:30:00.000+01" (aggregation_of Day1) = Ok w
            /\ assign_window w (aggregation_of Day1) = Ok w.
Proof. apply (assign_window_idempotent Day1 "2017-10-29T02:30:00.000+01"). reflexivity. Defined.

(** ** The calendar is monotone *)

Lemma days_before_year_succ (y : Z) :
  Calendar.days_before_year (y + 1) =
  Calendar.days_before_year y + (if Calendar.is_leap y then 366 else 365).
Proof.
  unfold Calendar.days_before_year, Calendar.is_leap.
  replace (y + 1 - 1) with y by lia.
  destruct (Z.eqb_spec (y mod 4) 0), (Z.eqb_spec (y mod 100) 0), (Z.eqb_spec (y mod 400) 0);
    cbn [andb orb negb]; Z.to_euclidean_division_equations; lia.
Qed.

Lemma days_before_year_mono (y y' : Z) :
  y <= y' -> Calendar.days_before_year y <= Calendar.days_before_year y'.
Proof.
  unfold Calendar.days_before_year. intros H.
  Z.to_euclidean_division_equations; lia.
Qed.

Lemma month_cases (m : Z) :
  1 <= m <= 12 -> In m [1; 2; 3; 4; 5; 6; 7; 8; 9; 10; 11; 12].
Proof. simpl. lia. Qed.

Ltac month_split H :=
  apply month_cases in H; simpl in H;
  repeat (destruct H as [<-|H]; [|]); [..|contradiction H].

Lemma days_in_month_le (y m : Z) : Calendar.days_in_month y m <= 31.
Proof.
  unfold Calendar.days_in_month.
  destruct (Calendar.is_leap y); destruct m as [|p|p]; cbn; try lia;
    do 4 (try (destruct p as [p|p|]; cbn; try lia)).
Qed.

Lemma day_of_year_bounds (y m d : Z) :
  1 <= m <= 12 -> 1 <= d <= Calendar.days_in_month y m ->
  1 <= Calendar.days_before_month y m + d <= (if Calendar.is_leap y then 366 else 365).
Proof.
  intros Hm. unfold Calendar.days_before_month, Calendar.days_in_month.
  destruct (Calendar.is_leap y); month_split Hm; cbn; lia.
Qed.

Lemma day_of_year_mono (y m d m' d' : Z) :
  1 <= m -> m < m' -> m' <= 12 -> d <= Calendar.days_in_month y m -> 1 <= d' ->
  Calendar.days_before_month y m + d < Calendar.days_before_month y m' + d'.
Proof.
  intros H1 H2 H3. assert (Hm : 1 <= m <= 12) by lia. assert (Hm' : 1 <= m' <= 12) by lia.
  unfold Calendar.days_before_month, Calendar.days_in_month.
  destruct (Calendar.is_leap y); month_split Hm; month_split Hm'; cbn; lia.
Qed.

Lemma ymd2ord_lt (y m d y' m' d' : Z) :
  1 <= m <= 12 -> 1 <= d <= Calendar.days_in_month y m ->
  1 <= m' <= 12 -> 1 <= d' <= Calendar.days_in_month y' m' ->
  (y * 100 + m) * 100 + d < (y' * 100 + m') * 100 + d' ->
  Calendar.ymd2ord y m d < Calendar.ymd2ord y' m' d'.
Proof.
  intros Hm Hd Hm' Hd' Hlt. unfold Calendar.ymd2ord.
  pose proof (days_in_month_le y m). pose proof (days_in_month_le y' m').
  pose proof (day_of_year_bounds y m d Hm Hd) as B.
  pose proof (day_of_year_bounds y' m' d' Hm' Hd') as B'.
  destruct (Z.lt_trichotomy y y') as [Hy|[->|Hy]]; [| |lia].
  - pose proof (days_before_year_succ y) as E.
    pose proof (days_before_year_mono (y + 1) y') as M.
    destruct (Calendar.is_leap y); lia.
  - destruct (Z.lt_trichotomy m m') as [Hlm|[->|Hlm]]; [| |lia].
    + pose proof (day_of_year_mono y' m d m' d'). lia.
    + lia.
Qed.

(** ** Chronological order and the order of the digits *)

(** The ranges of the fields of a valid timestamp. *)
Definition in_range (d : datetime) : Prop :=
  1 <= month d <= 12 /\ 1 <= day d <= Calendar.days_in_month (year d) (month d)
  /\ 0 <= hour d <= 23 /\ 0 <= minute d <= 59 /\ 0 <= second d <= 59
  /\ 0 <= millisecond d <= 999.

Lemma fields_in_range (l : layout) :
  digits_ok l = true -> well_formed (fields_of l) = true -> in_range (fields_of l).
Proof.
  intros Hd Hwf. digit_facts Hd.
  repeat match goal with H : is_digit _ = true |- _ => apply is_digit_range in H end.
  apply well_formed_iff in Hwf. unfold in_range.
  cbn [fields_of year month day hour minute second millisecond utcoffset] in *.
  unfold num2 in *. lia.
Qed.

Lemma instant_le_stamp_le (d1 d2 : datetime) :
  in_range d1 -> in_range d2 -> utcoffset d1 = utcoffset d2 ->
  instant d1 <= instant d2 -> stamp d1 <= stamp d2.
Proof.
  destruct d1 as [y1 m1 a1 h1 n1 s1 l1 o1], d2 as [y2 m2 a2 h2 n2 s2 l2 o2].
  unfold in_range, instant, stamp. cbn [year month day hour minute second millisecond utcoffset].
  intros (Hm1 & Ha1 & R1) (Hm2 & Ha2 & R2) -> Hle.
  pose proof (days_in_month_le y1 m1). pose proof (days_in_month_le y2 m2).
  destruct (Z.lt_trichotomy ((y1 * 100 + m1) * 100 + a1) ((y2 * 100 + m2) * 100 + a2))
    as [Hlt|[Heq|Hgt]].
  - lia.
  - assert (y1 = y2) by lia. assert (m1 = m2) by lia. assert (a1 = a2) by lia. subst.
    lia.
  - pose proof (ymd2ord_lt y2 m2 a2 y1 m1 a1 Hm2 Ha2 Hm1 Ha1 Hgt). lia.
Qed.

(** ** The order of the code points on the fixed-width format *)

Fixpoint lex_compare (xs ys : list Z) : comparison :=
  match xs, ys with
  | x :: xs', y :: ys' =>
      match x ?= y with
      | Eq => lex_compare xs' ys'
      | c => c
      end
  | _, _ => Eq
  end.

Definition decimal (ds : list Z) (acc : Z) : Z :=
  fold_left (fun a d => a * 10 + d) ds acc.

(** The digits of the local date and time, most significant first. *)
Definition time_digits (l : layout) : list ascii :=
  [Y1 l; Y2 l; Y3 l; Y4 l; M1 l; M2 l; D1 l; D2 l; H1 l; H2 l; N1 l; N2 l;
   S1 l; S2 l; L1 l; L2 l; L3 l].

Definition suffix_of (l : layout) : string :=
  String (SG l) (String (O1 l) (String (O2 l) "")).

Lemma ascii_compare_digit_value (a b : ascii) :
  Ascii.compare a b = (digit_value a ?= digit_value b).
Proof.
  unfold Ascii.compare, digit_value, code.
  destruct (N.compare_spec (N_of_ascii a) (N_of_ascii b)); symmetry;
    [apply Z.compare_eq_iff | apply Z.compare_lt_iff | apply Z.compare_gt_iff]; lia.
Qed.

Lemma compare_step (a b x y : Z) :
  0 <= x <= 9 -> 0 <= y <= 9 ->
  (a * 10 + x ?= b * 10 + y) = match a ?= b with Eq => x ?= y | c => c end.
Proof.
  intros Hx Hy.
  destruct (Z.compare_spec a b) as [->|?|?].
  - destruct (Z.compare_spec x y) as [->|?|?];
      [apply Z.compare_eq_iff | apply Z.compare_lt_iff | apply Z.compare_gt_iff]; lia.
  - apply Z.compare_lt_iff; lia.
  - apply Z.compare_gt_iff; lia.
Qed.

Lemma decimal_compare (xs ys : list Z) (a b : Z) :
  length xs = length ys ->
  Forall (fun d => 0 <= d <= 9) xs -> Forall (fun d => 0 <= d <= 9) ys ->
  (decimal xs a ?= decimal ys b) = match a ?= b with Eq => lex_compare xs ys | c => c end.
Proof.
  revert ys a b. induction xs as [|x xs IH]; intros [|y ys] a b Hlen Hx Hy;
    try discriminate Hlen.
  - cbn. destruct (a ?= b); reflexivity.
  - apply Forall_cons_1 in Hx, Hy. destruct Hx as [Hx Hxs], Hy as [Hy Hys].
    injection Hlen as Hlen. unfold decimal in *. cbn [fold_left lex_compare].
    rewrite IH by assumption. rewrite compare_step by assumption.
    destruct (a ?= b), (x ?= y); reflexivity.
Qed.

Lemma stamp_decimal (l : layout) :
  stamp (fields_of l) = decimal (map digit_value (time_digits l)) 0.
Proof.
  unfold stamp, decimal, time_digits, fields_of, num2.
  cbn [year month day hour minute second millisecond map fold_left]. ring.
Qed.

Lemma time_digits_range (l : layout) :
  digits_ok l = true -> Forall (fun d => 0 <= d <= 9) (map digit_value (time_digits l)).
Proof.
  intros Hd. digit_facts Hd.
  repeat match goal with H : is_digit _ = true |- _ => apply is_digit_range in H end.
  unfold time_digits. cbn [map]. repeat (constructor; [solve [assumption | reflexivity]|]). constructor.
Qed.

Lemma compare_render (l1 l2 : layout) :
  digits_ok l1 = true -> digits_ok l2 = true ->
  String.compare (render l1) (render l2) =
  match stamp (fields_of l1) ?= stamp (fields_of l2) with
  | Eq => String.compare (suffix_of l1) (suffix_of l2)
  | c => c
  end.
Proof.
  intros Hd1 Hd2. rewrite !stamp_decimal.
  rewrite decimal_compare by (auto using time_digits_range).
  change (0 ?= 0) with Eq. cbv iota.
  destruct l1, l2. unfold render, time_digits, suffix_of.
  cbn [string_of_list_ascii String.compare map lex_compare
       Y1 Y2 Y3 Y4 M1 M2 D1 D2 H1 H2 N1 N2 S1 S2 L1 L2 L3 SG O1 O2].
  change (Ascii.compare "-" "-") with Eq. change (Ascii.compare "T" "T") with Eq.
  change (Ascii.compare ":" ":") with Eq. change (Ascii.compare "." ".") with Eq.
  cbv iota. rewrite <- !ascii_compare_digit_value.
  repeat (match goal with |- context [match Ascii.compare ?a ?b with _ => _ end] =>
            destruct (Ascii.compare a b) end; try reflexivity).
Qed.

(** ** Windows are monotone *)

Lemma string_compare_refl (s : string) : String.compare s s = Eq.
Proof.
  induction s as [|c s IH]; [reflexivity|]. cbn [String.compare].
  unfold Ascii.compare. rewrite N.compare_refl. exact IH.
Qed.

Lemma slice_suffix (l : layout) : slice (render l) (Some (-3)) None = suffix_of l.
Proof. destruct l. reflexivity. Qed.

Lemma day_window_stamp (l : layout) :
  stamp (fields_of (window_layout Day1 l)) = stamp (fields_of (with_time l "0" "0" "0" "0")).
Proof.
  destruct l. unfold window_layout. cbv zeta.
  match goal with |- context [String.eqb ?a ?b] => destruct (String.eqb_spec a b) as [E|E] end;
    [injection E as -> -> -> -> -> -> -> -> -> -> ->|]; reflexivity.
Qed.

Lemma window_stamp_mono (g : granularity) (l1 l2 : layout) :
  digits_ok l1 = true -> digits_ok l2 = true ->
  stamp (fields_of l1) <= stamp (fields_of l2) ->
  stamp (fields_of (window_layout g l1)) <= stamp (fields_of (window_layout g l2)).
Proof.
  intros Hd1 Hd2. pose proof Hd1 as Hd1'. pose proof Hd2 as Hd2'.
  digit_facts Hd1'. digit_facts Hd2'.
  pose proof (floor15_digits (N1 l1) (N2 l1)) as F1.
  pose proof (floor15_digits (N1 l2) (N2 l2)) as F2.
  cbv zeta in F1, F2.
  destruct F1 as (_ & _ & F1); try assumption. destruct F2 as (_ & _ & F2); try assumption.
  repeat match goal with H : is_digit _ = true |- _ => apply is_digit_range in H end.
  destruct g; rewrite ?day_window_stamp; unfold window_layout; cbv zeta;
    rewrite !fields_of_with_time; unfold stamp, fields_of;
    cbn [year month day hour minute second millisecond utcoffset];
    rewrite ?F1, ?F2; unfold num2; change (digit_value "0") with 0;
    intros Hle; Z.to_euclidean_division_equations; lia.
Qed.

Lemma digits_ok_midnight (l : layout) :
  digits_ok l = true -> digits_ok (with_time l "0" "0" "0" "0") = true.
Proof. intros Hd. apply digits_ok_with_time; solve [assumption | reflexivity]. Qed.

Lemma window_suffix_eq (g : granularity) (l1 l2 : layout) :
  digits_ok l1 = true -> digits_ok l2 = true ->
  suffix_of l1 = suffix_of l2 ->
  stamp (fields_of (window_layout g l1)) = stamp (fields_of (window_layout g l2)) ->
  suffix_of (window_layout g l1) = suffix_of (window_layout g l2).
Proof.
  intros Hd1 Hd2 Hs. destruct g; try (intros _; exact Hs).
  rewrite !day_window_stamp. intros He. unfold window_layout. cbv zeta.
  assert (Hr : render (with_time l1 "0" "0" "0" "0") = render (with_time l2 "0" "0" "0" "0")).
  { apply String.compare_eq_iff.
    rewrite compare_render by (apply digits_ok_midnight; assumption).
    rewrite He, Z.compare_refl.
    change (suffix_of (with_time l1 "0" "0" "0" "0")) with (suffix_of l1).
    change (suffix_of (with_time l2 "0" "0" "0" "0")) with (suffix_of l2).
    rewrite Hs. apply string_compare_refl. }
  rewrite Hr. destruct (String.eqb _ _); [reflexivity|exact Hs].
Qed.

Lemma utcoffset_suffix (l1 l2 : layout) :
  suffix_of l1 = suffix_of l2 -> utcoffset (fields_of l1) = utcoffset (fields_of l2).
Proof.
  destruct l1, l2. unfold suffix_of, fields_of. cbn [SG O1 O2 utcoffset].
  intros E. injection E as -> -> ->. reflexivity.
Qed.

(** Two timestamps carry the same UTC-offset suffix. *)
Definition same_offset (t1 t2 : string) : Prop :=
  slice t1 (Some (-3)) None = slice t2 (Some (-3)) None.

(** C3 (as amended). For each of the five aggregation levels and every two
    valid fixed-width timestamps with the same UTC-offset suffix, if [t1]
    is chronologically earlier than or equal to [t2] then both have a
    window identifier and the one of [t1] is lexically less than or equal
    to the one of [t2]. *)
Theorem assign_window_monotone_same_offset (g : granularity) (t1 t2 : string) :
  valid_timestamp t1 = true -> valid_timestamp t2 = true ->
  same_offset t1 t2 -> chrono_le t1 t2 ->
  exists w1 w2,
    assign_window t1 (aggregation_of g) = Ok w1
    /\ assign_window t2 (aggregation_of g) = Ok w2
    /\ PyStr.le w1 w2.
Proof.
  intros Hv1 Hv2 Hs Hc.
  destruct (valid_timestamp_inv t1 Hv1) as (l1 & -> & Hd1 & Hw1).
  destruct (valid_timestamp_inv t2 Hv2) as (l2 & -> & Hd2 & Hw2).
  unfold same_offset in Hs. rewrite !slice_suffix in Hs.
  unfold chrono_le in Hc. rewrite !parse_render in Hc by assumption.
  apply instant_le_stamp_le in Hc;
    [|apply fields_in_range; assumption..|apply utcoffset_suffix, Hs].
  apply (window_stamp_mono g) in Hc; [|assumption..].
  exists (render (window_layout g l1)), (render (window_layout g l2)).
  split; [apply assign_window_layout, Hd1|].
  split; [apply assign_window_layout, Hd2|].
  unfold PyStr.le, String.leb.
  rewrite compare_render by (apply window_digits_ok; assumption).
  destruct (Z.compare_spec (stamp (fields_of (window_layout g l1)))
                           (stamp (fields_of (window_layout g l2)))) as [He|Hlt|Hgt].
  - rewrite (window_suffix_eq g l1 l2) by assumption.
    rewrite string_compare_refl. reflexivity.
  - reflexivity.
  - lia.
Qed.

Lemma assign_window_monotone_same_offset_witness :
  exists w1 w2,
    assign_window "2017-10-28T23:59:59.999+02" (aggregation_of Day1) = Ok w1
    /\ assign_window "2017-10-29T00:00:00.000+02" (aggregation_of Day1) = Ok w2
    /\ PyStr.le w1 w2.
Proof.
  apply (assign_window_monotone_same_offset Day1
           "2017-10-28T23:59:59.999+02" "2017-10-29T00:00:00.000+02").
  - reflexivity.
  - reflexivity.
  - reflexivity.
  - vm_compute. discriminate.
Defined.

(** C3 (as stated) fails where the clocks change: on 2017-10-29 the
    timestamp 02:30 at offset +02 is forty minutes before 02:10 at offset
    +01, yet its one-hour window is lexically the greater. *)
Lemma assign_window_monotone_counterexample :
  valid_timestamp "2017-10-29T02:30:00.000+02" = true
  /\ valid_timestamp "2017-10-29T02:10:00.000+01" = true
  /\ chrono_le "2017-10-29T02:30:00.000+02" "2017-10-29T02:10:00.000+01"
  /\ assign_window "2017-10-29T02:30:00.000+02" (aggregation_of Hour1)
     = Ok "2017-10-29T02:00:00.000+02"
  /\ assign_window "2017-10-29T02:10:00.000+01" (aggregation_of Hour1)
     = Ok "2017-10-29T02:00:00.000+01"
  /\ ~ PyStr.le "2017-10-29T02:00:00.000+02" "2017-10-29T02:00:00.000+01".
Proof.
  repeat split; try reflexivity.
  - vm_compute. discriminate.
  - vm_compute. discriminate.
Qed.

(** ** The window of the day the clocks change *)

(** C4. At the one-day level every valid timestamp of 2017-10-29, whether
    its UTC-offset suffix is +02 (before the change) or +01 (after it),
    has the window identifier 2017-10-29T00:00:00.000+02. *)
Theorem assign_window_day_of_change (t : string) :
  valid_timestamp t = true ->
  slice t None (Some 10) = "2017-10-29" ->
  slice t (Some (-3)) None = "+02" \/ slice t (Some (-3)) None = "+01" ->
  assign_window t (aggregation_of Day1) = Ok "2017-10-29T00:00:00.000+02".
Proof.
  intros Hv Hdate Hoff. destruct (valid_timestamp_inv t Hv) as (l & -> & _ & _).
  destruct l. cbv in Hdate. injection Hdate as -> -> -> -> -> -> -> ->.
  destruct Hoff as [Hoff|Hoff]; cbv in Hoff; injection Hoff as -> -> ->; reflexivity.
Qed.

Lemma assign_window_day_of_change_witness :
  assign_window "2017-10-29T02:30:00.000+01" (aggregation_of Day1)
  = Ok "2017-10-29T00:00:00.000+02".
Proof.
  apply (assign_window_day_of_change "2017-10-29T02:30:00.000+01").
  - reflexivity.
  - reflexivity.
  - right. reflexivity.
Defined.

(** ** Unsupported aggregation levels *)

(** C7. For every aggregation level outside the five supported ones and
    every series of timestamps, the call raises the error for an
    unsupported level and gives no window identifier, for the series and
    for a single timestamp alike. *)
Theorem unsupported_aggregation_raises (datetimes : list string) (aggregation : string) :
  ~ supported aggregation ->
  calc_aggregation_datetime datetimes aggregation
  = Raise (NotImplementedError ("Unsupported aggregation level '" ++ aggregation ++ "'."))
  /\ forall t, is_ok (assign_window t aggregation) = false.
Proof.
  intros Hn.
  assert (E : forall ds, calc_aggregation_datetime ds aggregation
    = Raise (NotImplementedError ("Unsupported aggregation level '" ++ aggregation ++ "'."))).
  { intros ds. unfold calc_aggregation_datetime.
    repeat match goal with
           | |- context [String.eqb aggregation ?s] =>
               destruct (String.eqb_spec aggregation s) as [->|_]
           end; try reflexivity; exfalso; apply Hn.
    - exists Minute; reflexivity.
    - exists Minutes10; reflexivity.
    - exists Minutes15; reflexivity.
    - exists Hour1; reflexivity.
    - exists Day1; reflexivity. }
  split; [apply E|]. intros t. unfold assign_window. rewrite E. reflexivity.
Qed.

Lemma unsupported_aggregation_raises_witness :
  calc_aggregation_datetime ["2017-10-01T00:07:23.500+02"] "15-minutes"
  = Raise (NotImplementedError "Unsupported aggregation level '15-minutes'.")
  /\ forall t, is_ok (assign_window t "15-minutes") = false.
Proof.
  apply (unsupported_aggregation_raises ["2017-10-01T00:07:23.500+02"] "15-minutes").
  intros [g Hg]. destruct g; discriminate Hg.
Defined.

(** ** What a window identifier looks like *)

(** The window whose offset the code rewrites: the day the clocks change,
    2017-10-29, at the one-day level, for a timestamp with the offset
    after the change, +01. *)
Definition normalised (g : granularity) (t : string) : Prop :=
  g = Day1 /\ slice t None (Some 10) = "2017-10-29" /\ slice t (Some (-3)) None = "+01".

Lemma window_suffix (g : granularity) (l : layout) :
  (normalised g (render l) -> suffix_of (window_layout g l) = "+02")
  /\ (~ normalised g (render l) -> suffix_of (window_layout g l) = suffix_of l).
Proof.
  unfold normalised. rewrite slice_suffix.
  destruct g; try (split; [intros [H _]; discriminate H|reflexivity]).
  destruct l. unfold window_layout. cbv zeta.
  match goal with |- context [String.eqb ?a ?b] => destruct (String.eqb_spec a b) as [E|E] end.
  - injection E as -> -> -> -> -> -> -> -> -> -> ->.
    split; [reflexivity|]. intros H. contradiction H. repeat split; reflexivity.
  - split; [|reflexivity]. intros (_ & Hdate & Hsuffix). contradiction E.
    cbv in Hdate. injection Hdate as -> -> -> -> -> -> -> ->.
    cbv in Hsuffix. injection Hsuffix as -> -> ->. reflexivity.
Qed.

Lemma window_seconds (g : granularity) (l : layout) :
  second (fields_of (window_layout g l)) = 0
  /\ millisecond (fields_of (window_layout g l)) = 0.
Proof.
  destruct g; unfold window_layout; cbv zeta;
    try (destruct (String.eqb _ _)); split; reflexivity.
Qed.

(** C10. For every valid fixed-width timestamp and each of the five
    aggregation levels, the window identifier exists, is itself a valid
    timestamp of the fixed-width format, has seconds and milliseconds
    zero, and has the date of the timestamp. Its UTC-offset suffix is that
    of the timestamp, with one exception: for a timestamp of 2017-10-29
    with suffix +01 at the one-day level the suffix of the window is +02. *)
Theorem assign_window_well_formed (g : granularity) (t : string) :
  valid_timestamp t = true ->
  exists w d,
    assign_window t (aggregation_of g) = Ok w
    /\ valid_timestamp w = true
    /\ parse w = Some d /\ second d = 0 /\ millisecond d = 0
    /\ slice w None (Some 10) = slice t None (Some 10)
    /\ (normalised g t -> slice w (Some (-3)) None = "+02")
    /\ (~ normalised g t -> slice w (Some (-3)) None = slice t (Some (-3)) None).
Proof.
  intros Hv. destruct (valid_timestamp_inv t Hv) as (l & -> & Hd & Hwf).
  exists (render (window_layout g l)), (fields_of (window_layout g l)).
  pose proof (window_digits_ok g l Hd) as Hd'.
  pose proof (window_well_formed g l Hd Hwf) as Hwf'.
  destruct (window_seconds g l) as [Hs Hm].
  destruct (window_suffix g l) as [Hnorm Hkept].
  rewrite !slice_suffix.
  repeat split; auto using assign_window_layout, valid_timestamp_render, parse_render,
                           window_layout_date.
Qed.

Lemma assign_window_well_formed_witness :
  exists w d,
    assign_window "2017-10-29T02:30:00.000+01" (aggregation_of Day1) = Ok w
    /\ valid_timestamp w = true
    /\ parse w = Some d /\ second d = 0 /\ millisecond d = 0
    /\ slice w None (Some 10) = slice "2017-10-29T02:30:00.000+01" None (Some 10)
    /\ (normalised Day1 "2017-10-29T02:30:00.000+01" ->
        slice w (Some (-3)) None = "+02")
    /\ (~ normalised Day1 "2017-10-29T02:30:00.000+01" ->
        slice w (Some (-3)) None = slice "2017-10-29T02:30:00.000+01" (Some (-3)) None).
Proof.
  apply (assign_window_well_formed Day1 "2017-10-29T02:30:00.000+01"). reflexivity.
Defined.

(** The two sides of the exception, computed: on the day of the clock
    change the one-day window of a +01 timestamp ends in +02, its
    ten-minute window in +01. *)
Example normalised_example :
  normalised Day1 "2017-10-29T02:30:00.000+01"
  /\ assign_window "2017-10-29T02:30:00.000+01" "1day" = Ok "2017-10-29T00:00:00.000+02"
  /\ ~ normalised Minutes10 "2017-10-29T02:30:00.000+01"
  /\ assign_window "2017-10-29T02:30:00.000+01" "10minutes" = Ok "2017-10-29T02:30:00.000+01".
Proof.
  repeat split; try reflexivity. intros [H _]. discriminate H.
Qed.

(** ** The fifteen-minute level *)

Lemma window_layout_15_text (l : layout) :
  slice (render (window_layout Minutes15 l)) None (Some 13) = slice (render l) None (Some 13).
Proof. destruct l. reflexivity. Qed.

(** C6. At the fifteen-minute level the window identifier of a valid
    fixed-width timestamp has the minute floored to the nearest lower
    multiple of 15 and seconds and milliseconds zero, with date, hour and
    offset unchanged; 00:07:23.500 gives 00:00:00.000 and 00:17:00.000
    gives 00:15:00.000. *)
Theorem assign_window_15minutes_floor :
  (forall t d,
      valid_timestamp t = true -> parse t = Some d ->
      exists w m,
        assign_window t (aggregation_of Minutes15) = Ok w
        /\ m mod 15 = 0 /\ m <= minute d < m + 15
        /\ parse w = Some {| year := year d; month := month d; day := day d;
                             hour := hour d; minute := m; second := 0;
                             millisecond := 0; utcoffset := utcoffset d |}
        /\ slice w None (Some 13) = slice t None (Some 13)
        /\ slice w (Some (-3)) None = slice t (Some (-3)) None)
  /\ assign_window "2017-10-01T00:07:23.500+02" (aggregation_of Minutes15)
     = Ok "2017-10-01T00:00:00.000+02"
  /\ assign_window "2017-10-01T00:17:00.000+02" (aggregation_of Minutes15)
     = Ok "2017-10-01T00:15:00.000+02".
Proof.
  split; [|split; reflexivity].
  intros t d Hv Hp. destruct (valid_timestamp_inv t Hv) as (l & -> & Hd & Hwf).
  rewrite parse_render in Hp by exact Hd. injection Hp as <-.
  exists (render (window_layout Minutes15 l)), (minute (fields_of l) / 15 * 15).
  split; [apply (assign_window_layout Minutes15), Hd|].
  split; [Z.to_euclidean_division_equations; lia|].
  split; [Z.to_euclidean_division_equations; lia|].
  split.
  - rewrite parse_render by (apply window_digits_ok, Hd).
    unfold window_layout. cbv zeta. rewrite fields_of_with_time.
    pose proof Hd as Hd'. digit_facts Hd'.
    destruct (floor15_digits (N1 l) (N2 l)) as (_ & _ & E); try assumption.
    cbv zeta in E. rewrite E. reflexivity.
  - split; [apply window_layout_15_text|].
    rewrite !slice_suffix. reflexivity.
Qed.

Lemma assign_window_15minutes_floor_witness :
  exists w m,
    assign_window "2017-10-01T00:07:23.500+02" (aggregation_of Minutes15) = Ok w
    /\ m mod 15 = 0 /\ m <= 7 < m + 15
    /\ parse w = Some {| year := 2017; month := 10; day := 1; hour := 0; minute := m;
                         second := 0; millisecond := 0; utcoffset := 2 |}
    /\ slice w None (Some 13) = slice "2017-10-01T00:07:23.500+02" None (Some 13)
    /\ slice w (Some (-3)) None = slice "2017-10-01T00:07:23.500+02" (Some (-3)) None.
Proof.
  exact (proj1 assign_window_15minutes_floor "2017-10-01T00:07:23.500+02"
           (Datetime 2017 10 1 0 7 23 500 2) eq_refl eq_refl).
Defined.

End WindowShape.

(** ** pandas tables *)

(** A cell of a table. Sensor channels hold floats, the timestamp column
    strings, a mask booleans, the weekday column integers. *)
Inductive cell : Type :=
  | Num (x : float)
  | Int (z : Z)
  | Str (s : string)
  | Bool (b : bool).

(** A row label of the index: a position for a table read from a file,
    a window identifier for a feature matrix. *)
Inductive label : Type :=
  | Pos (i : Z)
  | Key (s : string).

(** A record maps column labels to cells; a column without a cell reads
    as the missing value. *)
Notation record := (gmap string cell).

Record DataFrame : Type := Frame {
  columns : list string;
  rows : list (label * record)
}.

Definition missing : cell := Num nan.

Definition cell_at (r : record) (c : string) : cell := default missing (r !! c).

Definition has_column (c : string) (df : DataFrame) : bool :=
  bool_decide (c ∈ columns df).

(** [data[c]]. *)
Definition get_column (c : string) (df : DataFrame) : result (list cell) :=
  if has_column c df then Ok (map (fun r => cell_at r.2 c) (rows df))
  else Raise (KeyError {[c]}).

(** [data[[c1, ..., cn]]]: when some label is no column, the [KeyError]
    names every label that is none. *)
Definition select_columns (cs : list string) (df : DataFrame) : result DataFrame :=
  match List.find (fun c => negb (has_column c df)) cs with
  | Some _ =>
      Raise (KeyError (list_to_set (List.filter (fun c => negb (has_column c df)) cs)))
  | None =>
      Ok {| columns := cs;
            rows := map (fun r => (r.1, filter (fun kv => kv.1 ∈ cs) r.2)) (rows df) |}
  end.

(** [data[c] = values]: an existing column is overwritten in place, a new
    one is appended. *)
Definition set_column (c : string) (values : list cell) (df : DataFrame)
  : result DataFrame :=
  if negb (length values =? length (rows df))%nat then Raise ValueError
  else
    Ok {| columns := if has_column c df then columns df else (columns df ++ [c])%list;
          rows := zip_with (fun r v => (r.1, <[c := v]> r.2)) (rows df) values |}.

(** [data[mask]] for a boolean mask. *)
Fixpoint boolean_index (mask : list bool) (rs : list (label * record))
  : list (label * record) :=
  match mask, rs with
  | b :: mask', r :: rs' =>
      if b then r :: boolean_index mask' rs' else boolean_index mask' rs'
  | _, _ => []
  end.

(** [~column] for a column of booleans. *)
Definition invert (col : list cell) : result (list bool) :=
  series_apply (fun c => match c with Bool b => Ok (negb b) | _ => Raise TypeError end) col.

(** ** custom_features.py: the machine-state filter *)

Definition as_float (c : cell) : result float :=
  match c with
  | Num x => Ok x
  | _ => Raise TypeError
  end.

(** One step of [max(axis=1)]: missing values are skipped. *)
Definition nanmax (a x : float) : float :=
  if PrimFloat.is_nan x then a
  else if PrimFloat.is_nan a then x
  else if PrimFloat.ltb a x then x else a.

Definition row_max (cs : list string) (r : record) : result float :=
  xs ← series_apply (fun c => as_float (cell_at r c)) cs;
  Ok (fold_left nanmax xs nan).

Definition machine_off (data : DataFrame) (machine_off_threshold : float)
  : result (list bool) :=
  if has_column "I2_A" data then
    sub ← select_columns ["I1_A"; "I2_A"; "I3_A"] data;
    series_apply (fun r =>
      m ← row_max (columns sub) r.2;
      Ok (PrimFloat.leb (PrimFloat.abs m) machine_off_threshold)) (rows sub)
  else
    let target := if has_column "IAVR_A" data then "IAVR_A" else "I1_A" in
    sub ← select_columns [target] data;
    series_apply (fun r =>
      x ← as_float (cell_at r.2 target);
      Ok (PrimFloat.leb (PrimFloat.abs x) machine_off_threshold)) (rows sub).

(** ** main.py: removing the rows of a machine that is off *)

(** The table the caller passed, as the call leaves it, and the table
    returned. *)
Definition remove_machine_off_data (data : DataFrame) (machine_off_threshold : float)
  : result (DataFrame * DataFrame) :=
  mask ← machine_off data machine_off_threshold;
  data ← set_column "machine_off" (map Bool mask) data;
  col ← get_column "machine_off" data;
  keep ← invert col;
  kept ← select_columns (removelast (columns data))
            {| columns := columns data; rows := boolean_index keep (rows data) |};
  Ok (data, kept).

(** ** Properties of the tables *)

(** Every cell of a row belongs to a column of the table. *)
Definition wf_frame (df : DataFrame) : Prop :=
  Forall (fun r : label * record => forall c x, r.2 !! c = Some x -> c ∈ columns df) (rows df).

Lemma series_apply_length {A B} (f : A -> result B) (xs : list A) (ys : list B) :
  series_apply f xs = Ok ys -> length ys = length xs.
Proof.
  revert ys. induction xs as [|x xs IH]; intros ys H; cbn in H.
  - injection H as <-. reflexivity.
  - destruct (f x) as [y|e]; [|discriminate H]. cbn in H.
    destruct (series_apply f xs) as [ys'|e]; [|discriminate H]. cbn in H.
    injection H as <-. cbn. f_equal. apply IH. reflexivity.
Qed.

Lemma select_columns_rows_length (cs : list string) (df sub : DataFrame) :
  select_columns cs df = Ok sub -> length (rows sub) = length (rows df) /\ columns sub = cs.
Proof.
  unfold select_columns. destruct (List.find _ cs); [discriminate|].
  intros H. injection H as <-. cbn. rewrite length_map. auto.
Qed.

Lemma machine_off_length (data : DataFrame) (thr : float) (mask : list bool) :
  machine_off data thr = Ok mask -> length mask = length (rows data).
Proof.
  unfold machine_off. destruct (has_column "I2_A" data).
  - destruct (select_columns _ data) as [sub|e] eqn:Hs; [|discriminate]. cbn.
    intros H. apply series_apply_length in H.
    apply select_columns_rows_length in Hs. lia.
  - destruct (select_columns _ data) as [sub|e] eqn:Hs; [|discriminate]. cbn.
    intros H. apply series_apply_length in H.
    apply select_columns_rows_length in Hs. lia.
Qed.

Lemma invert_mask (mask : list bool) : invert (map Bool mask) = Ok (map negb mask).
Proof.
  unfold invert. induction mask as [|b mask IH]; [reflexivity|].
  cbn. cbn in IH. rewrite IH. reflexivity.
Qed.

Lemma restore_record (cs : list string) (c : string) (v : cell) (r : record) :
  c ∉ cs -> (forall k x, r !! k = Some x -> k ∈ cs) ->
  filter (fun kv : string * cell => kv.1 ∈ cs) (<[c := v]> r) = r.
Proof.
  intros Hc Hr. apply map_eq. intros k. apply option_eq. intros x.
  rewrite map_lookup_filter_Some, lookup_insert_Some. cbn. split.
  - intros [[[-> _]|[_ H]] Hk]; [contradiction|exact H].
  - intros H. pose proof (Hr k x H) as Hk. split; [|exact Hk].
    right. split; [|exact H]. intros ->. contradiction.
Qed.

Lemma boolean_index_sublist (mask : list bool) (rs : list (label * record)) :
  boolean_index mask rs `sublist_of` rs.
Proof.
  revert mask. induction rs as [|r rs IH]; intros [|b mask]; cbn;
    try apply sublist_nil_l.
  destruct b; [apply sublist_skip|apply sublist_cons]; apply IH.
Qed.

Lemma find_none_all (cs : list string) (df : DataFrame) :
  Forall (fun c => c ∈ columns df) cs ->
  List.find (fun c => negb (has_column c df)) cs = None.
Proof.
  induction 1 as [|c cs Hc _ IH]; [reflexivity|]. cbn.
  unfold has_column at 1. rewrite bool_decide_eq_true_2 by exact Hc. exact IH.
Qed.

Lemma cells_written (c : string) (rs : list (label * record)) (vs : list cell) :
  length vs = length rs ->
  map (fun r : label * record => cell_at r.2 c)
      (zip_with (fun r v => (r.1, <[c := v]> r.2)) rs vs) = vs.
Proof.
  revert vs. induction rs as [|r rs IH]; intros [|v vs] Hlen; try discriminate Hlen;
    [reflexivity|].
  cbn [zip_with map fst snd]. f_equal.
  - unfold cell_at. rewrite lookup_insert_eq. reflexivity.
  - apply IH. injection Hlen as ->. reflexivity.
Qed.

Lemma rows_restored (cs : list string) (c : string) (rs : list (label * record))
      (mask keep : list bool) :
  c ∉ cs ->
  Forall (fun r : label * record => forall k x, r.2 !! k = Some x -> k ∈ cs) rs ->
  length mask = length rs ->
  map (fun r : label * record => (r.1, filter (fun kv : string * cell => kv.1 ∈ cs) r.2))
      (boolean_index keep
         (zip_with (fun r v => (r.1, <[c := v]> r.2)) rs (map Bool mask)))
  = boolean_index keep rs.
Proof.
  intros Hc Hwf. revert mask keep.
  induction Hwf as [|r rs Hr _ IH]; intros [|b mask] [|k keep] Hlen;
    try discriminate Hlen; try reflexivity.
  injection Hlen as Hlen. cbn [map zip_with boolean_index]. destruct k.
  - cbn [map fst snd]. rewrite restore_record by assumption.
    destruct r. cbn [fst snd]. f_equal. apply IH, Hlen.
  - apply IH, Hlen.
Qed.

(** ** Removing the rows of a machine that is off *)

(** C9 (as amended). For every table that has no column named
    [machine_off], whose cells all belong to its columns, and on which the
    classification succeeds, and for every threshold, the call returns a
    table with exactly the columns of the input (so without the temporary
    [machine_off] column) whose rows are the input rows the machine is on
    in, unchanged and in their order: a subsequence of the input rows. *)
Theorem remove_machine_off_data_frame (data : DataFrame) (thr : float) (mask : list bool) :
  "machine_off" ∉ columns data ->
  wf_frame data ->
  machine_off data thr = Ok mask ->
  exists data' kept,
    remove_machine_off_data data thr = Ok (data', kept)
    /\ columns kept = columns data
    /\ "machine_off" ∉ columns kept
    /\ rows kept = boolean_index (map negb mask) (rows data)
    /\ rows kept `sublist_of` rows data.
Proof.
  intros Hno Hwf Hmask. pose proof (machine_off_length _ _ _ Hmask) as Hlen.
  set (data1 := {| columns := (columns data ++ ["machine_off"])%list;
                   rows := zip_with (fun r v => (r.1, <["machine_off" := v]> r.2))
                             (rows data) (map Bool mask) |}).
  assert (Hset : set_column "machine_off" (map Bool mask) data = Ok data1).
  { unfold set_column, has_column. rewrite length_map, Hlen, Nat.eqb_refl.
    rewrite bool_decide_eq_false_2 by exact Hno. reflexivity. }
  assert (Hget : get_column "machine_off" data1 = Ok (map Bool mask)).
  { unfold get_column, has_column. rewrite bool_decide_eq_true_2.
    - cbn [rows data1]. rewrite cells_written by (rewrite length_map; exact Hlen).
      reflexivity.
    - cbn [columns data1]. apply elem_of_app. right. apply list_elem_of_singleton.
      reflexivity. }
  assert (Hsel : select_columns (removelast (columns data1))
                   {| columns := columns data1;
                      rows := boolean_index (map negb mask) (rows data1) |}
                 = Ok {| columns := columns data;
                         rows := boolean_index (map negb mask) (rows data) |}).
  { cbn [columns rows data1]. rewrite removelast_last. unfold select_columns.
    rewrite find_none_all.
    - cbn [rows]. rewrite (rows_restored (columns data) "machine_off") by assumption.
      reflexivity.
    - cbn [columns]. apply Forall_forall. intros c Hc. apply elem_of_app. left. exact Hc. }
  exists data1, {| columns := columns data; rows := boolean_index (map negb mask) (rows data) |}.
  split.
  - unfold remove_machine_off_data. rewrite Hmask. cbn [mbind result_bind].
    rewrite Hset. cbn [mbind result_bind]. rewrite Hget. cbn [mbind result_bind].
    rewrite invert_mask. cbn [mbind result_bind]. rewrite Hsel. reflexivity.
  - cbn [columns rows]. repeat split; auto using boolean_index_sublist.
Qed.

(** The check of [wf_frame] by computation. *)
Definition wf_frameb (df : DataFrame) : bool :=
  forallb (fun r : label * record =>
             forallb (fun kv : string * cell => bool_decide (kv.1 ∈ columns df))
                     (map_to_list r.2))
          (rows df).

Lemma wf_frame_check (df : DataFrame) : wf_frameb df = true -> wf_frame df.
Proof.
  unfold wf_frameb, wf_frame. rewrite forallb_forall, Forall_forall.
  intros H r Hr c x Hcx. apply list_elem_of_In in Hr. specialize (H r Hr).
  rewrite forallb_forall in H. apply elem_of_map_to_list in Hcx.
  apply list_elem_of_In in Hcx. specialize (H (c, x) Hcx).
  apply bool_decide_eq_true in H. exact H.
Qed.

(** A table with two channels and two records. *)
Definition two_phase_example : DataFrame :=
  {| columns := ["SensorDateTime"; "I1_A"];
     rows := [(Pos 0, list_to_map [("SensorDateTime", Str "2017-10-01T00:07:23.500+02");
                                   ("I1_A", Num 1%float)]);
              (Pos 1, list_to_map [("SensorDateTime", Str "2017-10-01T00:07:28.500+02");
                                   ("I1_A", Num 0%float)])] |}.

Lemma remove_machine_off_data_frame_witness :
  exists data' kept,
    remove_machine_off_data two_phase_example 0%float = Ok (data', kept)
    /\ columns kept = columns two_phase_example
    /\ "machine_off" ∉ columns kept
    /\ rows kept = boolean_index (map negb [false; true]) (rows two_phase_example)
    /\ rows kept `sublist_of` rows two_phase_example.
Proof.
  apply (remove_machine_off_data_frame two_phase_example 0%float [false; true]).
  - cbn. intros H. repeat (apply elem_of_cons in H; destruct H as [H|H]; [discriminate H|]).
    apply elem_of_nil in H. exact H.
  - apply wf_frame_check. vm_compute. reflexivity.
  - vm_compute. reflexivity.
Defined.

(** A table that already has a column named [machine_off]. *)
Definition masked_example : DataFrame :=
  {| columns := ["I1_A"; "machine_off"; "P_kW"];
     rows := [(Pos 0, list_to_map [("I1_A", Num 1%float); ("machine_off", Str "no");
                                   ("P_kW", Num 2%float)])] |}.

(** C9 (as stated) fails on a table that already has a column named
    [machine_off]: the call overwrites that column in place and then drops
    the last column, so the result lacks [P_kW] and keeps [machine_off]. *)
Lemma remove_machine_off_data_counterexample :
  exists data' kept,
    remove_machine_off_data masked_example 0%float = Ok (data', kept)
    /\ columns kept = ["I1_A"; "machine_off"]
    /\ columns kept <> columns masked_example
    /\ "machine_off" ∈ columns kept.
Proof.
  eexists _, _. split; [vm_compute; reflexivity|]. cbn [columns masked_example].
  repeat split; [discriminate|set_solver].
Qed.

(** ** The machine-state filter on three current channels *)

(** The table of one record with the three currents. *)
Definition record_with_currents (i1 i2 i3 : float) : DataFrame :=
  {| columns := ["I1_A"; "I2_A"; "I3_A"];
     rows := [(Pos 0, list_to_map [("I1_A", Num i1); ("I2_A", Num i2); ("I3_A", Num i3)])] |}.

(** What the documentation asks of three channels: the greatest of the
    absolute values is at most the threshold. *)
Definition max_abs_le (currents : list float) (threshold : float) : bool :=
  PrimFloat.leb (fold_left nanmax (map PrimFloat.abs currents) nan) threshold.

(** C2. On three current channels the code takes the absolute value of
    the maximum, not the maximum of the absolute values: with currents
    -1, 0, 0 and threshold 0.3 the maximum is 0, so the machine is
    classified off, although the greatest absolute value is 1. The two
    examples of the claim, whose currents are positive, come out as the
    claim says. *)
Theorem machine_off_abs_after_max :
  machine_off (record_with_currents (-1) 0 0) 0.3 = Ok [true]
  /\ max_abs_le [(-1)%float; 0%float; 0%float] 0.3 = false
  /\ machine_off (record_with_currents 0.1 0.2 0.35) 0.3 = Ok [false]
  /\ machine_off (record_with_currents 0.1 0.2 0.25) 0.3 = Ok [true].
Proof. repeat split; vm_compute; reflexivity. Qed.

(** ** custom_features.py: the feature calculators *)

(** A time series is a numpy array of floats, which is also what
    [np.asarray] makes of a sequence that is neither an array nor a
    pandas Series; a calculator returns a Python number. The sentinel for
    "no value" is the float NaN. On a pandas Series the reductions of
    numpy are those of the Series, which skip missing values: [Dispatch]
    further down has [num_maxima] and [num_minima] for both kinds of
    argument. *)
Inductive pyval : Type :=
  | PyFloat (x : float)
  | PyInt (z : Z).

Definition NaN : pyval := PyFloat nan.

Module Np.

Definition of_nat (n : nat) : float := PrimFloat.of_uint63 (Uint63.of_Z (Z.of_nat n)).

Definition of_Z (z : Z) : float := PrimFloat.of_uint63 (Uint63.of_Z z).

(** [np.sum] and Python's [sum]: the elements added from left to right
    (numpy's pairwise order on long arrays is not modelled). *)
Definition sum (x : list float) : float := fold_left PrimFloat.add x 0%float.

(** [np.mean]: of the empty array it is 0/0, which is NaN. *)
Definition mean (x : list float) : float := PrimFloat.div (sum x) (of_nat (length x)).

(** One step of [np.max]: a NaN is kept. *)
Definition maximum (a b : float) : float :=
  if PrimFloat.is_nan a then a
  else if PrimFloat.is_nan b then b
  else if PrimFloat.ltb a b then b else a.

Definition minimum (a b : float) : float :=
  if PrimFloat.is_nan a then a
  else if PrimFloat.is_nan b then b
  else if PrimFloat.ltb b a then b else a.

(** [np.max] and [np.min] of a numpy array: a NaN is kept, and the empty
    array has no value. Of a pandas Series they are the reductions of the
    Series, see [Dispatch.np_max]. *)
Definition max (x : list float) : result float :=
  match x with
  | [] => Raise ValueError
  | a :: x' => Ok (fold_left maximum x' a)
  end.

Definition min (x : list float) : result float :=
  match x with
  | [] => Raise ValueError
  | a :: x' => Ok (fold_left minimum x' a)
  end.

(** [np.unique]: the distinct values, by the equality of floats. *)
Fixpoint unique (x : list float) : list float :=
  match x with
  | [] => []
  | a :: x' => if existsb (PrimFloat.eqb a) x' then unique x' else a :: unique x'
  end.

(** [sum(x == v)]: how many elements equal [v]. *)
Definition count_equal (v : float) (x : list float) : Z :=
  Z.of_nat (length (List.filter (fun a => PrimFloat.eqb a v) x)).

(** [np.array(range(1, n + 1))]. *)
Definition arange1 (n : nat) : list Z := map Z.of_nat (seq 1 n).

End Np.

(** tsfresh's [number_crossing_m]: the positions where [x > m] changes
    between neighbours. *)
Fixpoint changes (bs : list bool) : Z :=
  match bs with
  | a :: (b :: _) as bs' => (if Bool.eqb a b then 0 else 1) + changes bs'
  | _ => 0
  end.

Definition number_crossing_m (x : list float) (m : float) : Z :=
  changes (map (fun v => PrimFloat.ltb m v) x).

Definition crest_factor (x : list float) : result pyval :=
  if (length x <? 1)%nat then Ok NaN
  else
    peak ← Np.max (map PrimFloat.abs x);
    Ok (PyFloat (PrimFloat.div peak
                   (PrimFloat.sqrt (Np.mean (map (fun v => PrimFloat.mul v v) x))))).

Definition percentage_non_zero_values (x : list float) : result pyval :=
  Ok (PyFloat (Np.mean (map (fun v => if PrimFloat.eqb v 0 then 0%float else 1%float) x))).

Definition num_states (x : list float) : result pyval :=
  Ok (PyInt (Z.of_nat (length (Np.unique x)))).

Definition num_maxima (x : list float) : result pyval :=
  maximum ← Np.max x;
  Ok (if negb (PrimFloat.eqb maximum nan) then PyInt (Np.count_equal maximum x) else NaN).

Definition num_minima (x : list float) : result pyval :=
  minimum ← Np.min x;
  Ok (if negb (PrimFloat.eqb minimum nan) then PyInt (Np.count_equal minimum x) else NaN).

Definition linear_weighted_average (x : list float) : result pyval :=
  let n := length x in
  if (n <? 1)%nat then Ok NaN
  else
    let weighted := zip_with (fun i v => PrimFloat.mul (Np.of_Z i) v) (Np.arange1 n) x in
    Ok (PyFloat (PrimFloat.mul
                   (PrimFloat.div 2 (Np.of_Z (Z.of_nat n * (Z.of_nat n + 1))))
                   (Np.sum weighted))).

Definition quadratic_weighted_average (x : list float) : result pyval :=
  let n := length x in
  if (n <? 1)%nat then Ok NaN
  else
    let weighted := zip_with (fun i v => PrimFloat.mul (Np.of_Z (i ^ 2)) v) (Np.arange1 n) x in
    Ok (PyFloat (PrimFloat.mul
                   (PrimFloat.div 6 (Np.of_Z (Z.of_nat n * (Z.of_nat n + 1)
                                              * (2 * Z.of_nat n + 1))))
                   (Np.sum weighted))).

Definition number_crossing_mean (x : list float) : result pyval :=
  Ok (PyInt (number_crossing_m x (Np.mean x))).

(** The calculators this file adds to tsfresh, by name. *)
Definition custom_calculators : list (string * (list float -> result pyval)) :=
  [("crest_factor", crest_factor);
   ("percentage_non_zero_values", percentage_non_zero_values);
   ("num_states", num_states);
   ("num_maxima", num_maxima);
   ("num_minima", num_minima);
   ("linear_weighted_average", linear_weighted_average);
   ("quadratic_weighted_average", quadratic_weighted_average);
   ("number_crossing_mean", number_crossing_mean)].

Example crest_factor_example :
  crest_factor [1; -2; 3; -4]%float = Ok (PyFloat (4 / PrimFloat.sqrt 7.5)%float).
Proof. vm_compute. reflexivity. Qed.

Example linear_weighted_average_example :
  linear_weighted_average [1; 2; 3]%float = Ok (PyFloat (2 / 12 * 14)%float).
Proof. vm_compute. reflexivity. Qed.

(** ** The calculators on the empty series *)

(** C1 (as amended). On the empty series [crest_factor],
    [percentage_non_zero_values], [linear_weighted_average] and
    [quadratic_weighted_average] return the sentinel NaN and do not raise;
    [num_states] and [number_crossing_mean] return the count 0, which is
    not the sentinel. *)
Theorem calculators_on_empty :
  crest_factor [] = Ok NaN
  /\ percentage_non_zero_values [] = Ok NaN
  /\ linear_weighted_average [] = Ok NaN
  /\ quadratic_weighted_average [] = Ok NaN
  /\ num_states [] = Ok (PyInt 0)
  /\ number_crossing_mean [] = Ok (PyInt 0).
Proof. repeat split; vm_compute; reflexivity. Qed.

(** C1 (as stated) fails: not every custom calculator returns the sentinel
    on the empty series. [num_states] returns 0, and [num_maxima] raises
    on the empty array. *)
Lemma calculators_on_empty_counterexample :
  ~ Forall (fun f : string * (list float -> result pyval) => f.2 [] = Ok NaN)
      custom_calculators.
Proof.
  unfold custom_calculators. intros H.
  apply Forall_cons_1 in H. destruct H as [_ H].
  apply Forall_cons_1 in H. destruct H as [_ H].
  apply Forall_cons_1 in H. destruct H as [H _].
  vm_compute in H. discriminate H.
Qed.

(** ** custom_features.py and main.py: the weekday and the orchestrator *)

Section Orchestrator.

(** [dateutil.parser.parse], a library function: only what it does on the
    fixed-width format is assumed. *)
Variable dateutil_parse : string -> result datetime.

Hypothesis dateutil_parse_fixed :
  forall s d, parse s = Some d -> well_formed d = true -> dateutil_parse s = Ok d.

(** tsfresh's [extract_features] with [column_id='id'], a library
    function. *)
Variable extract_features : DataFrame -> result DataFrame.

(** [list(s)] for a set [s] given by its elements: some order of them. *)
Variable list_of_set : list string -> list string.

Definition weekday (x : string) : result Z :=
  d ← dateutil_parse x;
  Ok (Calendar.weekday (year d) (month d) (day d) + 1).

(** [set(a).intersection(set(b))], by its elements. *)
Definition set_intersection (a b : list string) : list string :=
  remove_dups (List.filter (fun c => bool_decide (c ∈ b)) a).

(** [frame.insert(loc=0, column=c, value=values)]. *)
Definition insert_first (c : string) (values : list cell) (df : DataFrame)
  : result DataFrame :=
  if has_column c df then Raise ValueError
  else if negb (length values =? length (rows df))%nat then Raise ValueError
  else
    Ok {| columns := c :: columns df;
          rows := zip_with (fun r v => (r.1, <[c := v]> r.2)) (rows df) values |}.

(** The weekday of a row label; a label that is no string is no date. *)
Definition weekday_of_label (l : label) : result Z :=
  match l with
  | Key s => weekday s
  | Pos _ => Raise TypeError
  end.

(** The two lines under "Add weekday feature". *)
Definition add_weekday_feature (feature_data : DataFrame) : result DataFrame :=
  weekday_data ← series_apply (fun r : label * record => weekday_of_label r.1) (rows feature_data);
  insert_first "weekday" (map Int weekday_data) feature_data.

Definition as_str (c : cell) : result string :=
  match c with
  | Str s => Ok s
  | _ => Raise TypeError
  end.

(** [data] is the table read from the input file; the result is the
    table written to the output file, [None] when the file is skipped. *)
Definition extract_features_from_file (data : DataFrame) (aggregation : string)
    (target_columns data_columns : list string) (prune_data : bool)
    (machine_off_threshold : float) : result (option DataFrame) :=
  let present_columns := set_intersection target_columns (columns data) in
  data ← select_columns (list_of_set present_columns) data;
  pruned ←
    (if prune_data then
       r ← remove_machine_off_data data machine_off_threshold;
       Ok (if (length (rows r.2) =? 0)%nat then None else Some r.2)
     else Ok (Some data));
  match pruned with
  | None => Ok None
  | Some data =>
      dates ← get_column DATE_COLUMN data;
      dates ← series_apply as_str dates;
      ids ← calc_aggregation_datetime dates aggregation;
      data ← set_column "id" (map Str ids) data;
      data ← select_columns
                ("id" :: list_of_set (set_intersection data_columns present_columns)) data;
      feature_data ← extract_features data;
      feature_data ← add_weekday_feature feature_data;
      Ok (Some feature_data)
  end.

(** The orchestrator up to the call of [extract_features]: the table it
    hands to the feature extraction, [None] when the file is skipped.
    [extract_features_from_file_steps] below shows that the orchestrator
    is this, then the extraction, then the weekday column. *)
Definition features_input (data : DataFrame) (aggregation : string)
    (target_columns data_columns : list string) (prune_data : bool)
    (machine_off_threshold : float) : result (option DataFrame) :=
  let present_columns := set_intersection target_columns (columns data) in
  data ← select_columns (list_of_set present_columns) data;
  pruned ←
    (if prune_data then
       r ← remove_machine_off_data data machine_off_threshold;
       Ok (if (length (rows r.2) =? 0)%nat then None else Some r.2)
     else Ok (Some data));
  match pruned with
  | None => Ok None
  | Some data =>
      dates ← get_column DATE_COLUMN data;
      dates ← series_apply as_str dates;
      ids ← calc_aggregation_datetime dates aggregation;
      data ← set_column "id" (map Str ids) data;
      data ← select_columns
                ("id" :: list_of_set (set_intersection data_columns present_columns)) data;
      Ok (Some data)
  end.

(** The days of the week, and the number the documentation gives each. *)
Inductive day_name : Type :=
  Monday | Tuesday | Wednesday | Thursday | Friday | Saturday | Sunday.

Definition day_number (n : day_name) : Z :=
  match n with
  | Monday => 1 | Tuesday => 2 | Wednesday => 3 | Thursday => 4
  | Friday => 5 | Saturday => 6 | Sunday => 7
  end.

(** The day of the week of a date, counted from Monday 2017-10-02. *)
Definition day_name_of (d : datetime) : day_name :=
  let elapsed := Calendar.ymd2ord (year d) (month d) (day d) - Calendar.ymd2ord 2017 10 2 in
  nth (Z.to_nat (elapsed mod 7))
      [Monday; Tuesday; Wednesday; Thursday; Friday; Saturday; Sunday] Monday.

Lemma bind_ok {A B} (r : result A) (k : A -> result B) (b : B) :
  (a ← r; k a) = Ok b -> exists a, r = Ok a /\ k a = Ok b.
Proof. destruct r as [a|e]; [|discriminate]. intros H. exists a. auto. Qed.

Lemma weekday_number (o : Z) :
  (o + 6) mod 7 + 1 =
  day_number (nth (Z.to_nat ((o - 736604) mod 7))
                  [Monday; Tuesday; Wednesday; Thursday; Friday; Saturday; Sunday] Monday).
Proof.
  assert (E : (o + 6) mod 7 = (o - 736604) mod 7) by (Z.to_euclidean_division_equations; lia).
  rewrite E. assert (H : 0 <= (o - 736604) mod 7 < 7) by (apply Z.mod_pos_bound; lia).
  revert H. generalize ((o - 736604) mod 7). intros k H.
  assert (Hk : In k [0; 1; 2; 3; 4; 5; 6]) by (simpl; lia).
  simpl in Hk. repeat (destruct Hk as [<-|Hk]; [reflexivity|]). contradiction Hk.
Qed.

Lemma weekday_of_parsed (s : string) (d : datetime) :
  parse s = Some d -> well_formed d = true ->
  weekday s = Ok (day_number (day_name_of d)).
Proof.
  intros Hp Hwf. unfold weekday. rewrite (dateutil_parse_fixed s d Hp Hwf).
  cbn [mbind result_bind]. unfold Calendar.weekday, day_name_of. cbv zeta.
  change (Calendar.ymd2ord 2017 10 2) with 736604. rewrite weekday_number. reflexivity.
Qed.

Lemma insert_first_columns (c : string) (vs : list cell) (df out : DataFrame) :
  insert_first c vs df = Ok out ->
  columns out = c :: columns df
  /\ rows out = zip_with (fun r v => (r.1, <[c := v]> r.2)) (rows df) vs
  /\ length vs = length (rows df).
Proof.
  unfold insert_first. destruct (has_column c df); [discriminate|].
  destruct (Nat.eqb_spec (length vs) (length (rows df))) as [E|E]; [|discriminate].
  cbn [negb]. intros H. injection H as <-. auto.
Qed.

Lemma add_weekday_feature_ok (fd out : DataFrame) :
  add_weekday_feature fd = Ok out ->
  columns out = "weekday" :: columns fd
  /\ Forall (fun r : label * record =>
               exists s k, r.1 = Key s /\ weekday s = Ok k
                           /\ r.2 !! "weekday" = Some (Int k)) (rows out).
Proof.
  unfold add_weekday_feature. intros H. apply bind_ok in H. destruct H as (ks & Hks & H).
  apply insert_first_columns in H. destruct H as (Hc & Hr & _). split; [exact Hc|].
  rewrite Hr. clear Hc Hr out. revert ks Hks.
  induction (rows fd) as [|r rs IH]; intros ks Hks; cbn in Hks.
  - injection Hks as <-. constructor.
  - apply bind_ok in Hks. destruct Hks as (k & Hk & Hks).
    apply bind_ok in Hks. destruct Hks as (ks' & Hks' & Hks). injection Hks as <-.
    cbn [map zip_with]. constructor; [|apply IH, Hks'].
    destruct r as [[i|s] m]; cbn [weekday_of_label fst] in Hk; [discriminate Hk|].
    exists s, k. cbn [fst snd]. rewrite lookup_insert_eq. auto.
Qed.

Lemma extract_features_from_file_steps (data : DataFrame) (aggregation : string)
      (target_columns data_columns : list string) (prune_data : bool) (threshold : float) :
  extract_features_from_file data aggregation target_columns data_columns prune_data threshold
  = (input ← features_input data aggregation target_columns data_columns prune_data threshold;
     match input with
     | None => Ok None
     | Some input =>
         feature_data ← extract_features input;
         feature_data ← add_weekday_feature feature_data;
         Ok (Some feature_data)
     end).
Proof.
  unfold extract_features_from_file, features_input. cbv zeta.
  destruct (select_columns _ data) as [data1|e]; [|reflexivity]. cbn [mbind result_bind].
  match goal with |- context [if prune_data then ?a else ?b] =>
    destruct (if prune_data then a else b) as [[data2|]|e]; try reflexivity end.
  cbn [mbind result_bind].
  destruct (get_column DATE_COLUMN data2) as [dates|e]; [|reflexivity]. cbn [mbind result_bind].
  destruct (series_apply as_str dates) as [strs|e]; [|reflexivity]. cbn [mbind result_bind].
  destruct (calc_aggregation_datetime strs aggregation) as [ids|e]; [|reflexivity].
  cbn [mbind result_bind].
  destruct (set_column "id" (map Str ids) data2) as [data3|e]; [|reflexivity].
  cbn [mbind result_bind].
  destruct (select_columns _ data3) as [data4|e]; reflexivity.
Qed.

(** The weekdays of row labels that are window identifiers. *)
Lemma weekdays_of_labels (rs : list (label * record)) :
  Forall (fun r : label * record => exists s, r.1 = Key s /\ valid_timestamp s = true) rs ->
  exists ks,
    series_apply (fun r : label * record => weekday_of_label r.1) rs = Ok ks
    /\ Forall2 (fun (r : label * record) k =>
                  exists s d, r.1 = Key s /\ parse s = Some d
                              /\ k = day_number (day_name_of d)) rs ks.
Proof.
  induction 1 as [|r rs (s & Hs & Hv) _ (ks & Hks & IH)].
  - exists []. split; [reflexivity|constructor].
  - unfold valid_timestamp in Hv. destruct (parse s) as [d|] eqn:Hp; [|discriminate Hv].
    exists (day_number (day_name_of d) :: ks). split.
    + cbn [series_apply]. rewrite Hs. cbn [weekday_of_label].
      rewrite (weekday_of_parsed s d Hp Hv). cbn [mbind result_bind]. rewrite Hks.
      reflexivity.
    + constructor; [exists s, d; auto|exact IH].
Qed.

(** The feature matrix [out] is the feature matrix [fd] with a new first
    column [weekday] that holds, in each row, the number of the day of
    the week of the row's window identifier. *)
Definition weekday_inserted (fd out : DataFrame) : Prop :=
  columns out = "weekday" :: columns fd
  /\ Forall2 (fun r r' : label * record =>
                r'.1 = r.1
                /\ exists s d, r.1 = Key s /\ parse s = Some d
                     /\ r'.2 = <["weekday" := Int (day_number (day_name_of d))]> r.2)
             (rows fd) (rows out).

Lemma add_weekday_feature_valid (fd : DataFrame) :
  "weekday" ∉ columns fd ->
  Forall (fun r : label * record => exists s, r.1 = Key s /\ valid_timestamp s = true)
         (rows fd) ->
  exists out, add_weekday_feature fd = Ok out /\ weekday_inserted fd out.
Proof.
  intros Hno Hlab. destruct (weekdays_of_labels _ Hlab) as (ks & Hks & H2).
  unfold add_weekday_feature. rewrite Hks. cbn [mbind result_bind]. unfold insert_first.
  unfold has_column. rewrite bool_decide_eq_false_2 by exact Hno.
  rewrite length_map, <- (Forall2_length _ _ _ H2), Nat.eqb_refl. cbn [negb].
  eexists. split; [reflexivity|]. split; [reflexivity|]. cbn [rows].
  clear Hks Hlab. induction H2 as [|r k rs ks (s & d & Hs & Hp & ->) _ IH];
    cbn [map zip_with]; constructor; [|exact IH].
  cbn [fst snd]. split; [reflexivity|]. exists s, d. auto.
Qed.

(** C8. The weekday of a window identifier counts Monday as 1 up to
    Sunday as 7 (days counted from Monday 2017-10-02); a window identifier
    of 2017-10-02 has weekday 1. The orchestrator inserts the weekday as
    the first column of the feature matrix: when the feature extraction
    returns a matrix [fd] for the table the orchestrator hands it, the
    rows of [fd] are labelled with window identifiers and [fd] has no
    column [weekday], the orchestrator returns [fd] with the new first
    column [weekday] holding in each row the weekday of its window
    identifier, all else unchanged. And whatever table the orchestrator
    returns has [weekday] as its first column, each row holding the
    weekday of its label. *)
Theorem weekday_first_column :
  (forall s d, parse s = Some d -> well_formed d = true ->
               weekday s = Ok (day_number (day_name_of d)))
  /\ (forall s, valid_timestamp s = true -> slice s None (Some 10) = "2017-10-02" ->
                weekday s = Ok 1)
  /\ (forall data aggregation target_columns data_columns prune_data threshold input fd,
        features_input data aggregation target_columns data_columns prune_data threshold
        = Ok (Some input) ->
        extract_features input = Ok fd ->
        "weekday" ∉ columns fd ->
        Forall (fun r : label * record => exists s, r.1 = Key s /\ valid_timestamp s = true)
               (rows fd) ->
        exists out,
          extract_features_from_file data aggregation target_columns data_columns
                                     prune_data threshold = Ok (Some out)
          /\ weekday_inserted fd out)
  /\ (forall data aggregation target_columns data_columns prune_data threshold out,
        extract_features_from_file data aggregation target_columns data_columns
                                   prune_data threshold = Ok (Some out) ->
        exists cs,
          columns out = "weekday" :: cs
          /\ Forall (fun r : label * record =>
                       exists s k, r.1 = Key s /\ weekday s = Ok k
                                   /\ r.2 !! "weekday" = Some (Int k)) (rows out)).
Proof.
  split; [exact weekday_of_parsed|]. split; [|split].
  - intros s Hv Hdate. unfold valid_timestamp in Hv.
    destruct (parse s) as [d|] eqn:Hp; [|discriminate Hv].
    rewrite (weekday_of_parsed s d Hp Hv). f_equal.
    unfold parse in Hp. destruct (scan s) as [l|] eqn:Hs; [|discriminate Hp].
    apply scan_render in Hs. subst s.
    destruct (digits_ok l); [|discriminate Hp]. injection Hp as <-.
    destruct l. cbv in Hdate. injection Hdate as -> -> -> -> -> -> -> ->. reflexivity.
  - intros data aggregation target_columns data_columns prune_data threshold input fd
           Hin Hfd Hno Hlab.
    destruct (add_weekday_feature_valid fd Hno Hlab) as (out & Hout & Hins).
    exists out. split; [|exact Hins].
    rewrite extract_features_from_file_steps, Hin. cbn [mbind result_bind].
    rewrite Hfd. cbn [mbind result_bind]. rewrite Hout. reflexivity.
  - intros data aggregation target_columns data_columns prune_data threshold out H.
    unfold extract_features_from_file in H. cbv zeta in H.
    apply bind_ok in H. destruct H as (data1 & _ & H).
    apply bind_ok in H. destruct H as ([data2|] & _ & H); [|discriminate H].
    do 6 (apply bind_ok in H; destruct H as (? & _ & H)).
    apply bind_ok in H. destruct H as (fd & Hfd & H). injection H as <-.
    apply add_weekday_feature_ok in Hfd. destruct Hfd as [Hc Hr].
    eexists. split; [exact Hc|exact Hr].
Qed.

End Orchestrator.

(** A parser that reads the fixed-width format and nothing else. *)
Definition fixed_width_parser (s : string) : result datetime :=
  match parse s with
  | Some d => if well_formed d then Ok d else Raise ValueError
  | None => Raise ValueError
  end.

(** A feature extraction with one feature: a row for each window
    identifier, labelled with it, holding the number of its records. *)
Definition count_records (df : DataFrame) : result DataFrame :=
  ids ← get_column "id" df;
  ids ← series_apply as_str ids;
  Ok {| columns := ["I1_A__length"];
        rows := map (fun i => (Key i,
                               {["I1_A__length" :=
                                   Int (Z.of_nat (length (List.filter (String.eqb i) ids)))]}))
                    (remove_dups ids) |}.

(** Three records of Monday 2017-10-02, in two windows of fifteen
    minutes. *)
Definition monday_example : DataFrame :=
  {| columns := ["SensorDateTime"; "I1_A"];
     rows := [(Pos 0, list_to_map [("SensorDateTime", Str "2017-10-02T00:07:23.500+02");
                                   ("I1_A", Num 1%float)]);
              (Pos 1, list_to_map [("SensorDateTime", Str "2017-10-02T00:12:00.000+02");
                                   ("I1_A", Num 2%float)]);
              (Pos 2, list_to_map [("SensorDateTime", Str "2017-10-02T00:17:00.000+02");
                                   ("I1_A", Num 3%float)])] |}.

Definition monday_features : DataFrame :=
  {| columns := ["I1_A__length"];
     rows := [(Key "2017-10-02T00:00:00.000+02", {["I1_A__length" := Int 2]});
              (Key "2017-10-02T00:15:00.000+02", {["I1_A__length" := Int 1]})] |}.

Lemma weekday_first_column_witness :
  weekday fixed_width_parser "2017-10-02T00:00:00.000+02" = Ok 1
  /\ exists out,
       extract_features_from_file fixed_width_parser count_records (fun l => l)
         monday_example "15minutes" ["SensorDateTime"; "I1_A"] ["I1_A"] false 0%float
       = Ok (Some out)
       /\ weekday_inserted monday_features out.
Proof.
  assert (Hparse : forall s d, parse s = Some d -> well_formed d = true ->
                               fixed_width_parser s = Ok d).
  { intros s d Hp Hwf. unfold fixed_width_parser. rewrite Hp, Hwf. reflexivity. }
  destruct (weekday_first_column fixed_width_parser Hparse count_records (fun l => l))
    as (_ & Hmonday & Hinsert & _).
  split.
  - apply Hmonday; reflexivity.
  - refine (Hinsert monday_example "15minutes" ["SensorDateTime"; "I1_A"] ["I1_A"] false
                    0%float _ monday_features _ _ _ _).
    + vm_compute. reflexivity.
    + vm_compute. reflexivity.
    + cbn [columns monday_features]. intros H.
      apply elem_of_cons in H. destruct H as [H|H]; [discriminate H|].
      apply elem_of_nil in H. exact H.
    + repeat (constructor; [eexists; split; reflexivity|]). constructor.
Defined.

(** The run on the three records of that Monday, computed: the feature
    matrix written has the weekday 1 in its first column. *)
Example monday_example_output :
  extract_features_from_file fixed_width_parser count_records (fun l => l)
    monday_example "15minutes" ["SensorDateTime"; "I1_A"] ["I1_A"] false 0%float
  = Ok (Some {| columns := ["weekday"; "I1_A__length"];
                rows := [(Key "2017-10-02T00:00:00.000+02",
                          <["weekday" := Int 1]> {["I1_A__length" := Int 2]});
                         (Key "2017-10-02T00:15:00.000+02",
                          <["weekday" := Int 1]> {["I1_A__length" := Int 1]})] |}).
Proof. vm_compute. reflexivity. Qed.

(** * Further properties of the code *)

(** ** The window of a series is the window of each of its timestamps *)

Lemma series_apply_ext {A B} (f g : A -> result B) (xs : list A) :
  (forall x, f x = g x) -> series_apply f xs = series_apply g xs.
Proof.
  intros H. induction xs as [|x xs IH]; [reflexivity|]. cbn. rewrite H, IH. reflexivity.
Qed.

Lemma series_apply_pure {A B} (h : A -> B) (xs : list A) :
  series_apply (fun x => Ok (h x)) xs = Ok (map h xs).
Proof. induction xs as [|x xs IH]; [reflexivity|]. cbn. rewrite IH. reflexivity. Qed.

(** X1. For each of the five levels the call on a series is the call on each
    timestamp on its own, in order, stopping at the first timestamp that
    raises: the window of a record does not depend on the other records. *)
Theorem calc_aggregation_datetime_elementwise (g : granularity) (datetimes : list string) :
  calc_aggregation_datetime datetimes (aggregation_of g)
  = series_apply (fun t => assign_window t (aggregation_of g)) datetimes.
Proof.
  destruct g; cbn [aggregation_of].
  - apply series_apply_ext. intros t. reflexivity.
  - apply series_apply_ext. intros t. reflexivity.
  - apply series_apply_ext. intros t. unfold assign_window, calc_aggregation_datetime.
    cbn. destruct (PyStr.int _); reflexivity.
  - apply series_apply_ext. intros t. reflexivity.
  - unfold calc_aggregation_datetime. cbn [String.eqb Ascii.eqb Bool.eqb].
    rewrite series_apply_pure. cbn [mbind result_bind]. unfold series_replace.
    rewrite map_map. rewrite <- series_apply_pure.
    apply series_apply_ext. intros t. reflexivity.
Qed.

(** ** Coarser windows are made of finer windows *)

(** The pairs of levels of which the second is cut out of the first:
    every level from the minute, the hour and the day from ten and from
    fifteen minutes, the day from the hour. *)
Definition nested (g1 g2 : granularity) : bool :=
  match g1, g2 with
  | Minute, (Minutes10 | Minutes15 | Hour1 | Day1) => true
  | Minutes10, (Hour1 | Day1) => true
  | Minutes15, (Hour1 | Day1) => true
  | Hour1, Day1 => true
  | _, _ => false
  end.

Lemma window_layout_nested (g1 g2 : granularity) (l : layout) :
  nested g1 g2 = true -> window_layout g2 (window_layout g1 l) = window_layout g2 l.
Proof. destruct g1, g2; intros H; try discriminate H; destruct l; reflexivity. Qed.

(** X2. For a valid timestamp the window at a coarser level of its window at
    a finer level is its window at the coarser level. *)
Theorem assign_window_nested (g1 g2 : granularity) (t : string) :
  nested g1 g2 = true -> valid_timestamp t = true ->
  exists w1 w2,
    assign_window t (aggregation_of g1) = Ok w1
    /\ assign_window w1 (aggregation_of g2) = Ok w2
    /\ assign_window t (aggregation_of g2) = Ok w2.
Proof.
  intros Hn Hv. destruct (valid_timestamp_inv t Hv) as (l & -> & Hd & _).
  exists (render (window_layout g1 l)), (render (window_layout g2 l)).
  split; [apply assign_window_layout, Hd|]. split; [|apply assign_window_layout, Hd].
  rewrite assign_window_layout by (apply window_digits_ok, Hd).
  rewrite window_layout_nested by exact Hn. reflexivity.
Qed.

Lemma assign_window_nested_witness :
  exists w1 w2,
    assign_window "2017-10-29T02:47:31.250+01" (aggregation_of Minutes15) = Ok w1
    /\ assign_window w1 (aggregation_of Day1) = Ok w2
    /\ assign_window "2017-10-29T02:47:31.250+01" (aggregation_of Day1) = Ok w2.
Proof.
  apply (assign_window_nested Minutes15 Day1 "2017-10-29T02:47:31.250+01"); reflexivity.
Defined.

(** Ten-minute windows are not cut out of fifteen-minute windows. *)
Example ten_minutes_not_in_fifteen :
  assign_window "2017-10-01T00:17:00.000+02" "15minutes" = Ok "2017-10-01T00:15:00.000+02"
  /\ assign_window "2017-10-01T00:10:00.000+02" "15minutes" = Ok "2017-10-01T00:00:00.000+02"
  /\ assign_window "2017-10-01T00:17:00.000+02" "10minutes" = Ok "2017-10-01T00:10:00.000+02".
Proof. repeat split; reflexivity. Qed.

(** ** A timestamp lies in its window *)

Definition window_length (g : granularity) : Z :=
  match g with
  | Minute => 60000
  | Minutes10 => 600000
  | Minutes15 => 900000
  | Hour1 => 3600000
  | Day1 => 86400000
  end.

Ltac split_digits H :=
  let HF := fresh "HF" in
  let Hs := fresh "Hsign" in
  apply digits_ok_iff in H; destruct H as [HF Hs]; unfold digits_of in HF;
  repeat match goal with
         | H : Forall _ (_ :: _) |- _ => apply Forall_cons_1 in H; destruct H
         | H : Forall _ [] |- _ => clear H
         end;
  repeat match goal with H : PyStr.is_digit _ = true |- _ => apply is_digit_range in H end.

Lemma floor15_bounds (m : Z) : m / 15 * 15 <= m /\ (m - m / 15 * 15) * 60000 + 60000 <= 900000.
Proof. Z.to_euclidean_division_equations; lia. Qed.

Lemma instant_in_window (o y h m s ms h' m' : Z) (len : Z) :
  0 <= s <= 59 -> 0 <= ms <= 999 ->
  0 <= (h - h') * 60 + (m - m') ->
  ((h - h') * 60 + (m - m')) * 60000 + 60000 <= len ->
  (((o * 24 + h' - y) * 60 + m') * 60 + 0) * 1000 + 0
  <= (((o * 24 + h - y) * 60 + m) * 60 + s) * 1000 + ms
  < (((o * 24 + h' - y) * 60 + m') * 60 + 0) * 1000 + 0 + len.
Proof. lia. Qed.

Lemma day_window_layout (l : layout) :
  ~ normalised Day1 (render l) ->
  window_layout Day1 l = with_time l "0" "0" "0" "0".
Proof.
  intros Hn. unfold window_layout. cbv zeta.
  destruct (String.eqb_spec (render (with_time l "0" "0" "0" "0"))
              "2017-10-29T00:00:00.000+01") as [E|E]; [|reflexivity].
  exfalso. apply Hn. destruct l. injection E as -> -> -> -> -> -> -> -> -> -> ->.
  repeat split; reflexivity.
Qed.

(** X3. Unless the code rewrites the offset, a valid timestamp lies in the
    window it is given: the window identifier denotes an instant not
    later than the timestamp and less than one window length (one minute,
    ten or fifteen minutes, one hour, one day) before it. *)
Theorem timestamp_in_window (g : granularity) (t : string) (d : datetime) :
  valid_timestamp t = true -> parse t = Some d -> ~ normalised g t ->
  exists w dw,
    assign_window t (aggregation_of g) = Ok w
    /\ parse w = Some dw
    /\ instant dw <= instant d < instant dw + window_length g.
Proof.
  intros Hv Hp Hn. destruct (valid_timestamp_inv t Hv) as (l & -> & Hd & Hwf).
  rewrite parse_render in Hp by exact Hd. injection Hp as <-.
  exists (render (window_layout g l)), (fields_of (window_layout g l)).
  split; [apply assign_window_layout, Hd|].
  split; [apply parse_render, window_digits_ok, Hd|].
  pose proof (fields_in_range l Hd Hwf) as (_ & _ & Hh & Hm & Hs & Hms).
  assert (Hn2 : 0 <= PyStr.digit_value (N2 l) <= 9).
  { pose proof Hd as Hd'. split_digits Hd'. assumption. }
  pose proof (floor15_bounds (minute (fields_of l))) as [F1 F2].
  assert (E15 : num2 (digit_char (num2 (N1 l) (N2 l) / 15 * 15 / 10))
                     (digit_char ((num2 (N1 l) (N2 l) / 15 * 15) mod 10))
                = minute (fields_of l) / 15 * 15).
  { pose proof Hd as Hd'. apply digits_ok_iff in Hd'. destruct Hd' as [HF _].
    unfold digits_of in HF.
    do 10 (apply Forall_cons_1 in HF; destruct HF as [_ HF]).
    apply Forall_cons_1 in HF. destruct HF as [Ha HF].
    apply Forall_cons_1 in HF. destruct HF as [Hb _].
    exact (proj2 (proj2 (floor15_digits (N1 l) (N2 l) Ha Hb))). }
  assert (E : window_layout g l =
              match g with
              | Minute => with_time l (H1 l) (H2 l) (N1 l) (N2 l)
              | Minutes10 => with_time l (H1 l) (H2 l) (N1 l) "0"
              | Minutes15 =>
                  with_time l (H1 l) (H2 l)
                    (digit_char (num2 (N1 l) (N2 l) / 15 * 15 / 10))
                    (digit_char ((num2 (N1 l) (N2 l) / 15 * 15) mod 10))
              | Hour1 => with_time l (H1 l) (H2 l) "0" "0"
              | Day1 => with_time l "0" "0" "0" "0"
              end).
  { destruct g; try reflexivity. apply day_window_layout. exact Hn. }
  rewrite E. clear E Hn Hv Hwf Hd.
  change (hour (fields_of l)) with (num2 (H1 l) (H2 l)) in Hh.
  change (minute (fields_of l)) with (num2 (N1 l) (N2 l)) in Hm, F1, F2, E15.
  unfold instant.
  destruct g; rewrite fields_of_with_time;
    cbn [year month day hour minute second millisecond utcoffset window_length];
    change (minute (fields_of l)) with (num2 (N1 l) (N2 l));
    change (hour (fields_of l)) with (num2 (H1 l) (H2 l));
    rewrite ?E15; apply instant_in_window; try assumption;
    change (num2 "0" "0") with 0;
    change (num2 (N1 l) "0") with (10 * PyStr.digit_value (N1 l) + 0);
    unfold num2 in *; lia.
Qed.

Lemma timestamp_in_window_witness :
  exists w dw,
    assign_window "2017-10-01T00:07:23.500+02" (aggregation_of Minutes15) = Ok w
    /\ parse w = Some dw
    /\ instant dw <= instant (Datetime 2017 10 1 0 7 23 500 2)
       < instant dw + window_length Minutes15.
Proof.
  apply (timestamp_in_window Minutes15 "2017-10-01T00:07:23.500+02"
           (Datetime 2017 10 1 0 7 23 500 2)).
  - reflexivity.
  - reflexivity.
  - intros [H _]. discriminate H.
Defined.

(** X4. Where the code rewrites the offset, the window identifier denotes an
    instant one hour before midnight in the offset of the timestamp: a
    timestamp of 2017-10-29 with offset +01 lies between one hour and
    twenty-five hours after the instant of its one-day window. *)
Theorem timestamp_after_normalised_window (t : string) (d : datetime) :
  valid_timestamp t = true -> parse t = Some d -> normalised Day1 t ->
  exists dw,
    assign_window t (aggregation_of Day1) = Ok DATE_CHANGE_WINTER
    /\ parse DATE_CHANGE_WINTER = Some dw
    /\ instant dw + 3600000 <= instant d < instant dw + 3600000 + 86400000.
Proof.
  intros Hv Hp (_ & Hdate & Hoff).
  destruct (valid_timestamp_inv t Hv) as (l & -> & Hd & Hwf).
  rewrite parse_render in Hp by exact Hd. injection Hp as <-.
  pose proof (fields_in_range l Hd Hwf) as (_ & _ & Hh & Hm & Hs & Hms).
  clear Hv Hd Hwf. destruct l. cbv in Hdate, Hoff.
  injection Hdate as -> -> -> -> -> -> -> ->. injection Hoff as -> -> ->.
  eexists. split; [|split; [reflexivity|]].
  - reflexivity.
  - revert Hh Hm Hs Hms. unfold instant, fields_of.
    cbn [year month day hour minute second millisecond utcoffset
         Y1 Y2 Y3 Y4 M1 M2 D1 D2 H1 H2 N1 N2 S1 S2 L1 L2 L3 SG O1 O2].
    change (100 * num2 "2" "0" + num2 "1" "7") with 2017.
    change (num2 "1" "0") with 10. change (num2 "2" "9") with 29.
    change ((if Ascii.eqb "+" "-" then -1 else 1) * num2 "0" "1") with 1.
    change ((if Ascii.eqb "+" "-" then -1 else 1) * num2 "0" "2") with 2.
    change (Calendar.ymd2ord 2017 10 29) with 736631.
    change (100 * PyStr.digit_value "0" + num2 "0" "0") with 0.
    change (num2 "0" "0") with 0.
    generalize (num2 H3 H4) (num2 N3 N4) (num2 S3 S4)
               (100 * PyStr.digit_value L4 + num2 L5 L6).
    intros h m s ms. lia.
Qed.

Lemma timestamp_after_normalised_window_witness :
  exists dw,
    assign_window "2017-10-29T02:30:00.000+01" (aggregation_of Day1) = Ok DATE_CHANGE_WINTER
    /\ parse DATE_CHANGE_WINTER = Some dw
    /\ instant dw + 3600000 <= instant (Datetime 2017 10 29 2 30 0 0 1)
       < instant dw + 3600000 + 86400000.
Proof.
  apply (timestamp_after_normalised_window "2017-10-29T02:30:00.000+01"
           (Datetime 2017 10 29 2 30 0 0 1)).
  - reflexivity.
  - reflexivity.
  - repeat split; reflexivity.
Defined.

(** ** The machine-state filter: where it agrees with its documentation,
       and how it fails *)

Lemma nanmax_fixed (xs : list float) (a : float) :
  PrimFloat.abs a = a -> Forall (fun x => PrimFloat.abs x = x) xs ->
  PrimFloat.abs (fold_left nanmax xs a) = fold_left nanmax xs a.
Proof.
  intros Ha H. revert a Ha. induction H as [|x xs Hx _ IH]; intros a Ha; [exact Ha|].
  cbn [fold_left]. apply IH. unfold nanmax.
  destruct (PrimFloat.is_nan x); [exact Ha|].
  destruct (PrimFloat.is_nan a); [exact Hx|].
  destruct (PrimFloat.ltb a x); assumption.
Qed.

(** X5. On three channels whose currents are their own absolute values (not
    negative, or missing), the classification is the documented one: off
    exactly when the greatest absolute value is at most the threshold. *)
Theorem machine_off_three_channels_nonnegative (i1 i2 i3 thr : float) :
  PrimFloat.abs i1 = i1 -> PrimFloat.abs i2 = i2 -> PrimFloat.abs i3 = i3 ->
  machine_off (record_with_currents i1 i2 i3) thr = Ok [max_abs_le [i1; i2; i3] thr].
Proof.
  intros E1 E2 E3.
  assert (E : machine_off (record_with_currents i1 i2 i3) thr
              = Ok [PrimFloat.leb (PrimFloat.abs (fold_left nanmax [i1; i2; i3] nan)) thr])
    by (vm_compute; reflexivity).
  rewrite E. unfold max_abs_le. cbn [map]. rewrite E1, E2, E3.
  rewrite nanmax_fixed; [reflexivity|reflexivity|].
  repeat (constructor; [assumption|]). constructor.
Qed.

Lemma machine_off_three_channels_nonnegative_witness :
  machine_off (record_with_currents 0.1 0.2 0.35) 0.3
  = Ok [max_abs_le [0.1; 0.2; 0.35]%float 0.3].
Proof.
  apply (machine_off_three_channels_nonnegative 0.1 0.2 0.35 0.3); reflexivity.
Defined.

Lemma has_column_false (c : string) (df : DataFrame) :
  c ∉ columns df -> has_column c df = false.
Proof. intros H. unfold has_column. apply bool_decide_eq_false_2, H. Qed.

Lemma has_column_true (c : string) (df : DataFrame) :
  c ∈ columns df -> has_column c df = true.
Proof. intros H. unfold has_column. apply bool_decide_eq_true_2, H. Qed.

(** X6. A table without a current column the classification reads makes it
    raise [KeyError], and the error names every such column: [I1_A] when
    the table has none of [I2_A], [IAVR_A] and [I1_A]; with [I2_A]
    present, those of [I1_A] and [I3_A] that are absent, both when both
    are. An [IAVR_A] column does not help a table that has [I2_A]. *)
Theorem machine_off_missing_column (data : DataFrame) (thr : float) :
  ("I2_A" ∉ columns data -> "IAVR_A" ∉ columns data -> "I1_A" ∉ columns data ->
   machine_off data thr = Raise (KeyError {["I1_A"]}))
  /\ ("I2_A" ∈ columns data -> "I1_A" ∉ columns data -> "I3_A" ∈ columns data ->
      machine_off data thr = Raise (KeyError {["I1_A"]}))
  /\ ("I2_A" ∈ columns data -> "I1_A" ∈ columns data -> "I3_A" ∉ columns data ->
      machine_off data thr = Raise (KeyError {["I3_A"]}))
  /\ ("I2_A" ∈ columns data -> "I1_A" ∉ columns data -> "I3_A" ∉ columns data ->
      machine_off data thr = Raise (KeyError {["I1_A"; "I3_A"]})).
Proof.
  unfold machine_off, select_columns. repeat split.
  - intros H2 Ha H1. rewrite (has_column_false _ _ H2), (has_column_false _ _ Ha).
    cbn [List.find List.filter]. rewrite (has_column_false _ _ H1).
    cbn [negb mbind result_bind]. reflexivity.
  - intros H2 H1 H3. rewrite (has_column_true _ _ H2). cbn [List.find List.filter].
    rewrite (has_column_false _ _ H1), (has_column_true _ _ H2), (has_column_true _ _ H3).
    cbn [negb mbind result_bind]. reflexivity.
  - intros H2 H1 H3. rewrite (has_column_true _ _ H2). cbn [List.find List.filter].
    rewrite (has_column_true _ _ H1), (has_column_true _ _ H2), (has_column_false _ _ H3).
    cbn [negb mbind result_bind]. reflexivity.
  - intros H2 H1 H3. rewrite (has_column_true _ _ H2). cbn [List.find List.filter].
    rewrite (has_column_false _ _ H1), (has_column_true _ _ H2), (has_column_false _ _ H3).
    cbn [negb mbind result_bind]. reflexivity.
Qed.

(** A table without any current column. *)
Definition no_current_example : DataFrame :=
  {| columns := ["SensorDateTime"; "P_kW"];
     rows := [(Pos 0, list_to_map [("SensorDateTime", Str "2017-10-01T00:07:23.500+02");
                                   ("P_kW", Num 2%float)])] |}.

(** A table with the second of three current channels only. *)
Definition second_channel_example : DataFrame :=
  {| columns := ["SensorDateTime"; "I2_A"];
     rows := [(Pos 0, list_to_map [("SensorDateTime", Str "2017-10-01T00:07:23.500+02");
                                   ("I2_A", Num 2%float)])] |}.

Lemma machine_off_missing_column_witness :
  machine_off second_channel_example 0%float = Raise (KeyError {["I1_A"; "I3_A"]}).
Proof.
  apply (proj2 (proj2 (proj2 (machine_off_missing_column second_channel_example 0%float))));
    cbn [columns second_channel_example]; [set_solver| |]; intros H;
    repeat (apply elem_of_cons in H; destruct H as [H|H]; [discriminate H|]);
    apply elem_of_nil in H; exact H.
Defined.

Example machine_off_no_current :
  machine_off no_current_example 0%float = Raise (KeyError {["I1_A"]}).
Proof. vm_compute. reflexivity. Qed.

(** ** The table passed to [remove_machine_off_data] is changed *)

Lemma get_column_written (c c' : string) (vs : list cell) (df df' : DataFrame) :
  set_column c vs df = Ok df' -> c' <> c -> get_column c' df' = get_column c' df.
Proof.
  unfold set_column. destruct (negb _) eqn:Hlen; [discriminate|].
  intros H Hne. injection H as <-. unfold get_column, has_column. cbn [columns rows].
  assert (Hc : bool_decide (c' ∈ (if bool_decide (c ∈ columns df) then columns df
                                    else (columns df ++ [c])%list))
               = bool_decide (c' ∈ columns df)).
  { apply bool_decide_ext. destruct (bool_decide (c ∈ columns df)); [reflexivity|].
    rewrite elem_of_app, list_elem_of_singleton. tauto. }
  rewrite Hc. destruct (bool_decide (c' ∈ columns df)); [|reflexivity]. f_equal.
  apply negb_false_iff, Nat.eqb_eq in Hlen. revert vs Hlen.
  induction (rows df) as [|r rs IH]; intros [|v vs] Hlen; try discriminate Hlen;
    [reflexivity|].
  cbn [zip_with map fst snd]. f_equal.
  - unfold cell_at. rewrite lookup_insert_ne by (intros ->; apply Hne; reflexivity).
    reflexivity.
  - apply IH. injection Hlen as ->. reflexivity.
Qed.

(** X7. The call does not leave the caller's table as it was: when the
    classification succeeds on a table without a [machine_off] column,
    the table passed has afterwards the new last column [machine_off]
    that holds the mask, and every other column as before. *)
Theorem remove_machine_off_data_marks_input (data : DataFrame) (thr : float)
    (mask : list bool) :
  "machine_off" ∉ columns data ->
  machine_off data thr = Ok mask ->
  exists data' kept,
    remove_machine_off_data data thr = Ok (data', kept)
    /\ columns data' = (columns data ++ ["machine_off"])%list
    /\ map fst (rows data') = map fst (rows data)
    /\ get_column "machine_off" data' = Ok (map Bool mask)
    /\ forall c, c <> "machine_off" -> get_column c data' = get_column c data.
Proof.
  intros Hno Hmask. pose proof (machine_off_length _ _ _ Hmask) as Hlen.
  set (data1 := {| columns := (columns data ++ ["machine_off"])%list;
                   rows := zip_with (fun r v => (r.1, <["machine_off" := v]> r.2))
                             (rows data) (map Bool mask) |}).
  assert (Hset : set_column "machine_off" (map Bool mask) data = Ok data1).
  { unfold set_column. rewrite length_map, Hlen, Nat.eqb_refl.
    rewrite (has_column_false _ _ Hno). reflexivity. }
  assert (Hget : get_column "machine_off" data1 = Ok (map Bool mask)).
  { unfold get_column. rewrite has_column_true.
    - cbn [rows data1]. rewrite cells_written by (rewrite length_map; exact Hlen).
      reflexivity.
    - cbn [columns data1]. apply elem_of_app. right. apply list_elem_of_singleton.
      reflexivity. }
  unfold remove_machine_off_data. rewrite Hmask. cbn [mbind result_bind].
  rewrite Hset. cbn [mbind result_bind]. rewrite Hget. cbn [mbind result_bind].
  rewrite invert_mask. cbn [mbind result_bind].
  cbn [columns data1]. rewrite removelast_last. unfold select_columns at 1.
  rewrite find_none_all.
  2:{ cbn [columns]. apply Forall_forall. intros c Hc. apply elem_of_app. left. exact Hc. }
  cbn [mbind result_bind]. eexists _, _. split; [reflexivity|].
  split; [reflexivity|]. split.
  - cbn [rows data1]. clear -Hlen. revert mask Hlen.
    induction (rows data) as [|r rs IH]; intros [|b mask] Hlen; try discriminate Hlen;
      [reflexivity|].
    cbn [map zip_with fst]. f_equal. apply IH. injection Hlen as ->. reflexivity.
  - split; [exact Hget|]. intros c Hc. apply (get_column_written _ _ _ _ _ Hset Hc).
Qed.

Lemma remove_machine_off_data_marks_input_witness :
  exists data' kept,
    remove_machine_off_data two_phase_example 0%float = Ok (data', kept)
    /\ columns data' = (columns two_phase_example ++ ["machine_off"])%list
    /\ map fst (rows data') = map fst (rows two_phase_example)
    /\ get_column "machine_off" data' = Ok (map Bool [false; true])
    /\ forall c, c <> "machine_off" -> get_column c data' = get_column c two_phase_example.
Proof.
  apply (remove_machine_off_data_marks_input two_phase_example 0%float [false; true]).
  - cbn. intros H. repeat (apply elem_of_cons in H; destruct H as [H|H]; [discriminate H|]).
    apply elem_of_nil in H. exact H.
  - vm_compute. reflexivity.
Defined.

(** ** config.py: the channels and thresholds of the pipeline *)

Definition NUM_THREADS : Z := 1.

Definition DATA_COLUMNS : gmap string (list string) :=
  <["2 phase" := ["V1_V"; "F_Hz"; "I1_A"; "P_kW"; "Q_kvar"; "S_kVA"; "L1_F"] ]>
  (<["3 phase" := ["VAVR_V"; "F_Hz"; "IAVR_A"; "P_kW"; "Q_kvar"; "S_kVA"; "L_F"] ]> ∅).

Definition TARGET_COLUMNS : gmap string (list string) :=
  (fun v => DATE_COLUMN :: v) <$> DATA_COLUMNS.

(** [defaultdict(lambda: 0.0, PickAndPlaceUnit=0.3)], looked up. *)
Definition MACHINE_OFF_THRESHOLDS (machine : string) : float :=
  default 0%float (({["PickAndPlaceUnit" := 0.3%float]} : gmap string float) !! machine).

Lemma TARGET_COLUMNS_cases (k : string) (tc : list string) :
  TARGET_COLUMNS !! k = Some tc ->
  (k = "2 phase" /\ tc = ["SensorDateTime"; "V1_V"; "F_Hz"; "I1_A"; "P_kW"; "Q_kvar";
                          "S_kVA"; "L1_F"])
  \/ (k = "3 phase" /\ tc = ["SensorDateTime"; "VAVR_V"; "F_Hz"; "IAVR_A"; "P_kW"; "Q_kvar";
                             "S_kVA"; "L_F"]).
Proof.
  unfold TARGET_COLUMNS, DATA_COLUMNS. rewrite lookup_fmap_Some.
  intros (v & <- & H). apply lookup_insert_Some in H.
  destruct H as [[<- <-]|[_ H]]; [left; split; reflexivity|].
  apply lookup_insert_Some in H. destruct H as [[<- <-]|[_ H]]; [right; split; reflexivity|].
  rewrite lookup_empty in H. discriminate H.
Qed.

Lemma select_columns_wf (cs : list string) (df sub : DataFrame) :
  select_columns cs df = Ok sub ->
  columns sub = cs /\ map fst (rows sub) = map fst (rows df) /\ wf_frame sub.
Proof.
  unfold select_columns. destruct (List.find _ cs); [discriminate|].
  intros H. injection H as <-. cbn [columns rows]. split; [reflexivity|]. split.
  - rewrite map_map. reflexivity.
  - unfold wf_frame. cbn [columns rows]. apply Forall_forall. intros r Hr c x Hcx.
    apply list_elem_of_fmap in Hr. destruct Hr as (r0 & -> & _). cbn [snd] in Hcx.
    apply map_lookup_filter_Some in Hcx. destruct Hcx as [_ Hc]. exact Hc.
Qed.

(** ** The orchestrator on the tables of the pipeline *)

Lemma cell_at_selected (cs : list string) (c : string) (r : record) :
  c ∈ cs -> cell_at (filter (fun kv : string * cell => kv.1 ∈ cs) r) c = cell_at r c.
Proof.
  intros Hc. unfold cell_at. f_equal. apply option_eq. intros x.
  rewrite map_lookup_filter_Some. cbn [fst]. tauto.
Qed.

Lemma single_channel_mask (target : string) (df : DataFrame) (thr : float) (mask : list bool) :
  (sub ← select_columns [target] df;
   series_apply (fun r : label * record =>
                   x ← as_float (cell_at r.2 target);
                   Ok (PrimFloat.leb (PrimFloat.abs x) thr)) (rows sub)) = Ok mask ->
  exists xs, get_column target df = Ok (map Num xs)
             /\ mask = map (fun x => PrimFloat.leb (PrimFloat.abs x) thr) xs.
Proof.
  intros H. apply bind_ok in H. destruct H as (sub & Hsub & H).
  unfold select_columns in Hsub. cbn [List.find] in Hsub.
  unfold get_column. destruct (has_column target df); [|discriminate Hsub].
  cbn [negb] in Hsub. injection Hsub as <-. cbn [rows] in H.
  revert mask H. induction (rows df) as [|r rs IH]; intros mask H.
  - cbn in H. injection H as <-. exists []. split; reflexivity.
  - cbn [map series_apply] in H. apply bind_ok in H. destruct H as (b & Hb & H).
    apply bind_ok in H. destruct H as (mask' & Hm & H). injection H as <-.
    destruct (IH mask' Hm) as (xs & Hxs & ->). injection Hxs as Hxs.
    cbn [snd] in Hb. rewrite cell_at_selected in Hb by (apply list_elem_of_singleton; reflexivity).
    apply bind_ok in Hb. destruct Hb as (x & Hx & Hb). injection Hb as <-.
    destruct (cell_at r.2 target) as [x'| | |] eqn:Ec; try discriminate Hx.
    injection Hx as ->. exists (x :: xs). cbn [map]. rewrite Ec, Hxs. split; reflexivity.
Qed.

Lemma remove_machine_off_data_result (data : DataFrame) (thr : float) (mask : list bool) :
  "machine_off" ∉ columns data -> wf_frame data -> machine_off data thr = Ok mask ->
  exists data',
    remove_machine_off_data data thr
    = Ok (data', {| columns := columns data;
                    rows := boolean_index (map negb mask) (rows data) |}).
Proof.
  intros Hno Hwf Hmask. pose proof (machine_off_length _ _ _ Hmask) as Hlen.
  unfold remove_machine_off_data. rewrite Hmask. cbn [mbind result_bind].
  unfold set_column. rewrite length_map, Hlen, Nat.eqb_refl, (has_column_false _ _ Hno).
  cbn [negb mbind result_bind]. unfold get_column. cbn [columns rows].
  rewrite has_column_true
    by (cbn [columns]; apply elem_of_app; right; apply list_elem_of_singleton; reflexivity).
  cbn [rows]. rewrite cells_written by (rewrite length_map; exact Hlen).
  cbn [mbind result_bind]. rewrite invert_mask. cbn [mbind result_bind].
  rewrite removelast_last. unfold select_columns. rewrite find_none_all.
  - cbn [rows mbind result_bind].
    rewrite (rows_restored (columns data) "machine_off") by assumption.
    eexists. reflexivity.
  - cbn [columns]. apply Forall_forall. intros c Hc. apply elem_of_app. left. exact Hc.
Qed.

Lemma boolean_index_none (mask : list bool) (rs : list (label * record)) :
  Forall (fun b => b = true) mask -> boolean_index (map negb mask) rs = [].
Proof.
  intros H. revert rs. induction H as [|b mask -> _ IH]; intros [|r rs]; try reflexivity.
  cbn. apply IH.
Qed.

Section Pipeline.

Variable list_of_set : list string -> list string.

(** A set is listed in some order, each element once. *)
Hypothesis list_of_set_perm : forall l, list_of_set l ≡ₚ l.

(** The first step of the orchestrator: the table narrowed to the target
    columns it has. *)
Definition narrow (data : DataFrame) (target_columns : list string) : result DataFrame :=
  select_columns (list_of_set (set_intersection target_columns (columns data))) data.

Lemma present_columns_spec (tc cs : list string) (c : string) :
  c ∈ list_of_set (set_intersection tc cs) <-> c ∈ tc /\ c ∈ cs.
Proof.
  rewrite (list_of_set_perm _). unfold set_intersection.
  rewrite elem_of_remove_dups, list_elem_of_In, filter_In, bool_decide_eq_true.
  rewrite <- list_elem_of_In. reflexivity.
Qed.

Lemma narrow_ok (data : DataFrame) (tc : list string) :
  exists data1,
    narrow data tc = Ok data1
    /\ wf_frame data1
    /\ map fst (rows data1) = map fst (rows data)
    /\ forall c, c ∈ columns data1 <-> c ∈ tc /\ c ∈ columns data.
Proof.
  unfold narrow.
  destruct (select_columns (list_of_set (set_intersection tc (columns data))) data)
    as [data1|e] eqn:E.
  - exists data1. apply select_columns_wf in E. destruct E as (Hc & Hl & Hwf).
    split; [reflexivity|]. split; [exact Hwf|]. split; [exact Hl|].
    intros c. rewrite Hc. apply present_columns_spec.
  - exfalso. unfold select_columns in E. rewrite find_none_all in E; [discriminate E|].
    apply Forall_forall. intros c Hc. apply present_columns_spec in Hc. tauto.
Qed.

(** X8. On the files of the pipeline the three-channel rule is never used:
    the table narrowed to the configured target columns of a phase count
    has no [I2_A] and no [machine_off] column, and when the classification
    of it succeeds, the mask is the comparison of the absolute value of
    one channel with the threshold, [IAVR_A] for three phases and [I1_A]
    for two. *)
Theorem pipeline_single_channel (data data1 : DataFrame) (k : string) (tc : list string)
    (thr : float) (mask : list bool) :
  TARGET_COLUMNS !! k = Some tc ->
  narrow data tc = Ok data1 ->
  machine_off data1 thr = Ok mask ->
  "I2_A" ∉ columns data1 /\ "machine_off" ∉ columns data1 /\ wf_frame data1
  /\ exists xs,
       get_column (if String.eqb k "3 phase" then "IAVR_A" else "I1_A") data1
       = Ok (map Num xs)
       /\ mask = map (fun x => PrimFloat.leb (PrimFloat.abs x) thr) xs.
Proof.
  intros Hk Hn Hm. destruct (narrow_ok data tc) as (d & Hd & Hwf & _ & Hcols).
  rewrite Hn in Hd. injection Hd as <-.
  assert (H2 : "I2_A" ∉ columns data1).
  { intros H. apply Hcols in H. destruct H as [H _].
    apply TARGET_COLUMNS_cases in Hk. destruct Hk as [[_ ->]|[_ ->]];
      repeat (apply elem_of_cons in H; destruct H as [H|H]; [discriminate H|]);
      apply elem_of_nil in H; exact H. }
  assert (Hmo : "machine_off" ∉ columns data1).
  { intros H. apply Hcols in H. destruct H as [H _].
    apply TARGET_COLUMNS_cases in Hk. destruct Hk as [[_ ->]|[_ ->]];
      repeat (apply elem_of_cons in H; destruct H as [H|H]; [discriminate H|]);
      apply elem_of_nil in H; exact H. }
  split; [exact H2|]. split; [exact Hmo|]. split; [exact Hwf|].
  unfold machine_off in Hm. rewrite (has_column_false _ _ H2) in Hm.
  apply TARGET_COLUMNS_cases in Hk. destruct Hk as [[-> ->]|[-> ->]]; cbn [String.eqb Ascii.eqb Bool.eqb].
  - assert (Ha : "IAVR_A" ∉ columns data1).
    { intros H. apply Hcols in H. destruct H as [H _].
      repeat (apply elem_of_cons in H; destruct H as [H|H]; [discriminate H|]).
      apply elem_of_nil in H. exact H. }
    rewrite (has_column_false _ _ Ha) in Hm. cbv zeta in Hm.
    apply single_channel_mask in Hm. exact Hm.
  - destruct (has_column "IAVR_A" data1) eqn:Ha; cbv zeta in Hm.
    + apply single_channel_mask in Hm. exact Hm.
    + exfalso. apply single_channel_mask in Hm. destruct Hm as (xs & Hg & _).
      unfold get_column in Hg. destruct (has_column "I1_A" data1) eqn:H1; [|discriminate Hg].
      unfold has_column in H1. apply bool_decide_eq_true in H1.
      apply Hcols in H1. destruct H1 as [H1 _].
      repeat (apply elem_of_cons in H1; destruct H1 as [H1|H1]; [discriminate H1|]).
      apply elem_of_nil in H1. exact H1.
Qed.

Section Orchestration.

Variable dateutil_parse : string -> result datetime.
Variable extract_features : DataFrame -> result DataFrame.

(** X9. Without the timestamp column, in the table or among the target
    columns, and without pruning, the orchestrator raises [KeyError] for
    [SensorDateTime]; nothing is extracted. *)
Theorem extract_features_missing_timestamp (data : DataFrame) (aggregation : string)
    (target_columns data_columns : list string) (thr : float) :
  DATE_COLUMN ∉ columns data \/ DATE_COLUMN ∉ target_columns ->
  extract_features_from_file dateutil_parse extract_features list_of_set
    data aggregation target_columns data_columns false thr
  = Raise (KeyError {["SensorDateTime"]}).
Proof.
  intros Hmiss. destruct (narrow_ok data target_columns) as (d & Hd & _ & _ & Hcols).
  unfold extract_features_from_file. cbv zeta. unfold narrow in Hd. rewrite Hd.
  cbn [mbind result_bind]. unfold get_column. rewrite has_column_false; [reflexivity|].
  intros H. apply Hcols in H. tauto.
Qed.

(** X10. With pruning, a table in which the machine is off in every record
    (an empty table too) is skipped: the orchestrator returns without a
    feature matrix and without an error, whatever the aggregation level. *)
Theorem extract_features_skips_all_off (data data1 : DataFrame) (aggregation : string)
    (target_columns data_columns : list string) (thr : float) (mask : list bool) :
  "machine_off" ∉ target_columns ->
  narrow data target_columns = Ok data1 ->
  machine_off data1 thr = Ok mask ->
  Forall (fun b => b = true) mask ->
  extract_features_from_file dateutil_parse extract_features list_of_set
    data aggregation target_columns data_columns true thr
  = Ok None.
Proof.
  intros Hno Hn Hm Hall. destruct (narrow_ok data target_columns) as (d & Hd & Hwf & _ & Hcols).
  rewrite Hn in Hd. injection Hd as <-.
  assert (Hmo : "machine_off" ∉ columns data1) by (intros H; apply Hcols in H; tauto).
  destruct (remove_machine_off_data_result data1 thr mask Hmo Hwf Hm) as (data' & Hr).
  unfold extract_features_from_file. cbv zeta. unfold narrow in Hn. rewrite Hn.
  cbn [mbind result_bind]. rewrite Hr. cbn [mbind result_bind snd rows].
  rewrite boolean_index_none by exact Hall. reflexivity.
Qed.

End Orchestration.

End Pipeline.

Definition two_phase_targets : list string :=
  ["SensorDateTime"; "V1_V"; "F_Hz"; "I1_A"; "P_kW"; "Q_kvar"; "S_kVA"; "L1_F"].

Lemma pipeline_single_channel_witness :
  "I2_A" ∉ columns two_phase_example /\ "machine_off" ∉ columns two_phase_example
  /\ wf_frame two_phase_example
  /\ exists xs,
       get_column (if String.eqb "2 phase" "3 phase" then "IAVR_A" else "I1_A")
                  two_phase_example = Ok (map Num xs)
       /\ [false; true] = map (fun x => PrimFloat.leb (PrimFloat.abs x) 0) xs.
Proof.
  apply (pipeline_single_channel (fun l => l) (fun l => reflexivity l)
           two_phase_example two_phase_example "2 phase" two_phase_targets 0%float
           [false; true]).
  - reflexivity.
  - vm_compute. reflexivity.
  - vm_compute. reflexivity.
Defined.

Lemma extract_features_missing_timestamp_witness :
  extract_features_from_file fixed_width_parser (fun df => Ok df) (fun l => l)
    no_current_example "15minutes" ["I1_A"; "P_kW"] ["I1_A"; "P_kW"] false 0%float
  = Raise (KeyError {["SensorDateTime"]}).
Proof.
  apply (extract_features_missing_timestamp (fun l => l) (fun l => reflexivity l)
           fixed_width_parser (fun df => Ok df)).
  right. intros H.
  repeat (apply elem_of_cons in H; destruct H as [H|H]; [discriminate H|]).
  apply elem_of_nil in H. exact H.
Defined.

(** A table in which the machine is off in every record. *)
Definition all_off_example : DataFrame :=
  {| columns := ["SensorDateTime"; "I1_A"];
     rows := [(Pos 0, list_to_map [("SensorDateTime", Str "2017-10-01T00:07:23.500+02");
                                   ("I1_A", Num 0%float)]);
              (Pos 1, list_to_map [("SensorDateTime", Str "2017-10-01T00:07:28.500+02");
                                   ("I1_A", Num 0.2%float)])] |}.

Lemma extract_features_skips_all_off_witness :
  extract_features_from_file fixed_width_parser (fun df => Ok df) (fun l => l)
    all_off_example "15minutes" two_phase_targets
    ["V1_V"; "F_Hz"; "I1_A"; "P_kW"; "Q_kvar"; "S_kVA"; "L1_F"] true 0.3%float
  = Ok None.
Proof.
  apply (extract_features_skips_all_off (fun l => l) (fun l => reflexivity l)
           fixed_width_parser (fun df => Ok df)
           all_off_example all_off_example "15minutes" two_phase_targets
           ["V1_V"; "F_Hz"; "I1_A"; "P_kW"; "Q_kvar"; "S_kVA"; "L1_F"] 0.3%float
           [true; true]).
  - unfold two_phase_targets. intros H.
    repeat (apply elem_of_cons in H; destruct H as [H|H]; [discriminate H|]).
    apply elem_of_nil in H. exact H.
  - vm_compute. reflexivity.
  - vm_compute. reflexivity.
  - repeat constructor.
Defined.

(** ** The calculators: what they return and when they raise *)

Lemma eqb_nan_r (x : float) : PrimFloat.eqb x nan = false.
Proof.
  rewrite FloatAxioms.eqb_spec. change (Prim2SF nan) with S754_nan.
  unfold SFeqb. destruct (Prim2SF x); reflexivity.
Qed.

Lemma SFcompare_refl (f : spec_float) : f <> S754_nan -> SFcompare f f = Some Eq.
Proof.
  destruct f as [s|s| |s m e]; intros H; try reflexivity.
  - destruct s; reflexivity.
  - contradiction H. reflexivity.
  - cbn. rewrite Z.compare_refl, Pos.compare_cont_refl. destruct s; reflexivity.
Qed.

Lemma is_nan_spec (m : float) : PrimFloat.is_nan m = true -> Prim2SF m = S754_nan.
Proof.
  unfold PrimFloat.is_nan. rewrite FloatAxioms.eqb_spec. unfold SFeqb. intros H.
  destruct (Prim2SF m) eqn:E; try reflexivity;
    rewrite SFcompare_refl in H by discriminate; discriminate H.
Qed.

Lemma eqb_is_nan_r (x m : float) : PrimFloat.is_nan m = true -> PrimFloat.eqb x m = false.
Proof.
  intros H. rewrite FloatAxioms.eqb_spec, (is_nan_spec m H).
  unfold SFeqb. destruct (Prim2SF x); reflexivity.
Qed.

Lemma maximum_nan_stays (xs : list float) (a : float) :
  PrimFloat.is_nan a = true -> PrimFloat.is_nan (fold_left Np.maximum xs a) = true.
Proof.
  revert a. induction xs as [|x xs IH]; intros a Ha; [exact Ha|].
  cbn [fold_left]. apply IH. unfold Np.maximum. rewrite Ha. exact Ha.
Qed.

Lemma minimum_nan_stays (xs : list float) (a : float) :
  PrimFloat.is_nan a = true -> PrimFloat.is_nan (fold_left Np.minimum xs a) = true.
Proof.
  revert a. induction xs as [|x xs IH]; intros a Ha; [exact Ha|].
  cbn [fold_left]. apply IH. unfold Np.minimum. rewrite Ha. exact Ha.
Qed.

Lemma maximum_nan_found (xs : list float) (a : float) :
  In nan xs -> PrimFloat.is_nan (fold_left Np.maximum xs a) = true.
Proof.
  revert a. induction xs as [|x xs IH]; intros a H; [contradiction H|].
  cbn [fold_left]. destruct H as [->|H]; [|apply IH, H].
  apply maximum_nan_stays. unfold Np.maximum.
  destruct (PrimFloat.is_nan a) eqn:Ha; [exact Ha|reflexivity].
Qed.

Lemma minimum_nan_found (xs : list float) (a : float) :
  In nan xs -> PrimFloat.is_nan (fold_left Np.minimum xs a) = true.
Proof.
  revert a. induction xs as [|x xs IH]; intros a H; [contradiction H|].
  cbn [fold_left]. destruct H as [->|H]; [|apply IH, H].
  apply minimum_nan_stays. unfold Np.minimum.
  destruct (PrimFloat.is_nan a) eqn:Ha; [exact Ha|reflexivity].
Qed.

Lemma count_equal_range (v : float) (x : list float) :
  0 <= Np.count_equal v x <= Z.of_nat (length x).
Proof.
  unfold Np.count_equal. pose proof (List.filter_length_le (fun a => PrimFloat.eqb a v) x).
  lia.
Qed.

Lemma count_equal_nan (m : float) (x : list float) :
  PrimFloat.is_nan m = true -> Np.count_equal m x = 0.
Proof.
  intros Hm. unfold Np.count_equal. induction x as [|a x IH]; [reflexivity|].
  cbn [List.filter]. rewrite (eqb_is_nan_r a m Hm). exact IH.
Qed.

(** ** The calculators on an array and on a Series *)

(** The calculators accept a numpy array or a pandas Series; any other
    sequence is made an array by [np.asarray]. The two differ where a
    calculator calls a reduction of numpy: on a Series [np.max(x)] and
    [np.min(x)] call [x.max()] and [x.min()], which skip missing values
    and are NaN when no value is left, the empty Series included. *)
Inductive timeseries : Type :=
  | Ndarray (values : list float)
  | Series (values : list float).

Definition values_of (x : timeseries) : list float :=
  match x with
  | Ndarray v => v
  | Series v => v
  end.

Module Pd.

(** One step of [Series.min]: missing values are skipped. *)
Definition nanmin (a x : float) : float :=
  if PrimFloat.is_nan x then a
  else if PrimFloat.is_nan a then x
  else if PrimFloat.ltb x a then x else a.

(** [Series.max()] and [Series.min()]. *)
Definition max (x : list float) : float := fold_left nanmax x nan.

Definition min (x : list float) : float := fold_left nanmin x nan.

End Pd.

Module Dispatch.

(** [np.max(x)] and [np.min(x)], by the type of [x]. *)
Definition np_max (x : timeseries) : result float :=
  match x with
  | Ndarray v => Np.max v
  | Series v => Ok (Pd.max v)
  end.

Definition np_min (x : timeseries) : result float :=
  match x with
  | Ndarray v => Np.min v
  | Series v => Ok (Pd.min v)
  end.

Definition num_maxima (x : timeseries) : result pyval :=
  maximum ← np_max x;
  Ok (if negb (PrimFloat.eqb maximum nan)
      then PyInt (Np.count_equal maximum (values_of x)) else NaN).

Definition num_minima (x : timeseries) : result pyval :=
  minimum ← np_min x;
  Ok (if negb (PrimFloat.eqb minimum nan)
      then PyInt (Np.count_equal minimum (values_of x)) else NaN).

End Dispatch.

(** On an array these are the calculators of the section above. *)
Lemma num_extrema_ndarray (v : list float) :
  Dispatch.num_maxima (Ndarray v) = num_maxima v
  /\ Dispatch.num_minima (Ndarray v) = num_minima v.
Proof. split; reflexivity. Qed.

Lemma eqb_refl_value (a : float) : PrimFloat.is_nan a = false -> PrimFloat.eqb a a = true.
Proof. unfold PrimFloat.is_nan. destruct (PrimFloat.eqb a a); [reflexivity|discriminate]. Qed.

Lemma count_equal_found (m : float) (x : list float) :
  In m x -> PrimFloat.is_nan m = false -> 1 <= Np.count_equal m x.
Proof.
  intros Hin Hm. unfold Np.count_equal. induction x as [|a x IH]; [contradiction Hin|].
  cbn [List.filter]. destruct Hin as [->|Hin].
  - rewrite (eqb_refl_value m Hm). cbn [length]. lia.
  - specialize (IH Hin). destruct (PrimFloat.eqb a m); cbn [length]; lia.
Qed.

(** The greatest and the least element of an array without NaN are
    elements of it. *)
Lemma maximum_found (xs : list float) (a : float) :
  Forall (fun b => PrimFloat.is_nan b = false) (a :: xs) ->
  In (fold_left Np.maximum xs a) (a :: xs)
  /\ PrimFloat.is_nan (fold_left Np.maximum xs a) = false.
Proof.
  revert a. induction xs as [|x xs IH]; intros a H.
  - apply Forall_cons_1 in H. destruct H as [Ha _]. split; [left; reflexivity|exact Ha].
  - apply Forall_cons_1 in H. destruct H as [Ha H]. apply Forall_cons_1 in H.
    destruct H as [Hx H]. cbn [fold_left]. unfold Np.maximum at 2 4. rewrite Ha, Hx.
    destruct (PrimFloat.ltb a x).
    + destruct (IH x) as [Hin Hn]; [constructor; assumption|]. split; [right; exact Hin|exact Hn].
    + destruct (IH a) as [Hin Hn]; [constructor; assumption|]. split; [|exact Hn].
      destruct Hin as [<-|Hin]; [left; reflexivity|right; right; exact Hin].
Qed.

Lemma minimum_found (xs : list float) (a : float) :
  Forall (fun b => PrimFloat.is_nan b = false) (a :: xs) ->
  In (fold_left Np.minimum xs a) (a :: xs)
  /\ PrimFloat.is_nan (fold_left Np.minimum xs a) = false.
Proof.
  revert a. induction xs as [|x xs IH]; intros a H.
  - apply Forall_cons_1 in H. destruct H as [Ha _]. split; [left; reflexivity|exact Ha].
  - apply Forall_cons_1 in H. destruct H as [Ha H]. apply Forall_cons_1 in H.
    destruct H as [Hx H]. cbn [fold_left]. unfold Np.minimum at 2 4. rewrite Ha, Hx.
    destruct (PrimFloat.ltb x a).
    + destruct (IH x) as [Hin Hn]; [constructor; assumption|]. split; [right; exact Hin|exact Hn].
    + destruct (IH a) as [Hin Hn]; [constructor; assumption|]. split; [|exact Hn].
      destruct Hin as [<-|Hin]; [left; reflexivity|right; right; exact Hin].
Qed.

(** A reduction of a Series: a step that skips missing values keeps a
    value once it has one, takes the first value it meets, and has none
    when the Series has none. *)
Section Skipna.

Variable step : float -> float -> float.

Hypothesis step_missing : forall a x, PrimFloat.is_nan x = true -> step a x = a.
Hypothesis step_first : forall a x,
  PrimFloat.is_nan x = false -> PrimFloat.is_nan a = true -> step a x = x.
Hypothesis step_choice : forall a x,
  PrimFloat.is_nan x = false -> PrimFloat.is_nan a = false -> step a x = a \/ step a x = x.

Lemma skipna_value (xs : list float) (a : float) :
  PrimFloat.is_nan a = false ->
  In (fold_left step xs a) (a :: xs) /\ PrimFloat.is_nan (fold_left step xs a) = false.
Proof.
  revert a. induction xs as [|x xs IH]; intros a Ha; [split; [left; reflexivity|exact Ha]|].
  cbn [fold_left]. destruct (PrimFloat.is_nan x) eqn:Hx.
  - rewrite (step_missing a x Hx). destruct (IH a Ha) as [Hin Hn]. split; [|exact Hn].
    destruct Hin as [<-|Hin]; [left; reflexivity|right; right; exact Hin].
  - destruct (step_choice a x Hx Ha) as [E|E]; rewrite E.
    + destruct (IH a Ha) as [Hin Hn]. split; [|exact Hn].
      destruct Hin as [<-|Hin]; [left; reflexivity|right; right; exact Hin].
    + destruct (IH x Hx) as [Hin Hn]. split; [right; exact Hin|exact Hn].
Qed.

Lemma skipna_found (xs : list float) (a : float) :
  PrimFloat.is_nan a = true ->
  Exists (fun b => PrimFloat.is_nan b = false) xs ->
  In (fold_left step xs a) xs /\ PrimFloat.is_nan (fold_left step xs a) = false.
Proof.
  intros Ha H. induction H as [x xs Hx|x xs _ IH]; cbn [fold_left].
  - rewrite (step_first a x Hx Ha). exact (skipna_value xs x Hx).
  - destruct (PrimFloat.is_nan x) eqn:Hx.
    + rewrite (step_missing a x Hx). destruct IH as [Hin Hn]. split; [right; exact Hin|exact Hn].
    + rewrite (step_first a x Hx Ha). exact (skipna_value xs x Hx).
Qed.

Lemma skipna_none (xs : list float) (a : float) :
  PrimFloat.is_nan a = true ->
  Forall (fun b => PrimFloat.is_nan b = true) xs ->
  PrimFloat.is_nan (fold_left step xs a) = true.
Proof.
  intros Ha H. induction H as [|x xs Hx _ IH]; [exact Ha|].
  cbn [fold_left]. rewrite (step_missing a x Hx). exact IH.
Qed.

End Skipna.

Lemma nanmax_missing (a x : float) : PrimFloat.is_nan x = true -> nanmax a x = a.
Proof. intros H. unfold nanmax. rewrite H. reflexivity. Qed.

Lemma nanmax_first (a x : float) :
  PrimFloat.is_nan x = false -> PrimFloat.is_nan a = true -> nanmax a x = x.
Proof. intros Hx Ha. unfold nanmax. rewrite Hx, Ha. reflexivity. Qed.

Lemma nanmax_choice (a x : float) :
  PrimFloat.is_nan x = false -> PrimFloat.is_nan a = false ->
  nanmax a x = a \/ nanmax a x = x.
Proof. intros Hx Ha. unfold nanmax. rewrite Hx, Ha. destruct (PrimFloat.ltb a x); auto. Qed.

Lemma nanmin_missing (a x : float) : PrimFloat.is_nan x = true -> Pd.nanmin a x = a.
Proof. intros H. unfold Pd.nanmin. rewrite H. reflexivity. Qed.

Lemma nanmin_first (a x : float) :
  PrimFloat.is_nan x = false -> PrimFloat.is_nan a = true -> Pd.nanmin a x = x.
Proof. intros Hx Ha. unfold Pd.nanmin. rewrite Hx, Ha. reflexivity. Qed.

Lemma nanmin_choice (a x : float) :
  PrimFloat.is_nan x = false -> PrimFloat.is_nan a = false ->
  Pd.nanmin a x = a \/ Pd.nanmin a x = x.
Proof. intros Hx Ha. unfold Pd.nanmin. rewrite Hx, Ha. destruct (PrimFloat.ltb x a); auto. Qed.

(** X11. [num_maxima] and [num_minima] never return the sentinel: the test
    [maximum != np.NaN] is always true, so the branch that returns NaN is
    dead, and what they return is a count between 0 and the length of
    the series. On an array that is not empty the count is 0 when the
    array has a NaN and at least 1 when it has none. On a Series, whose
    reductions skip missing values, the count is at least 1 when the
    Series has a value and 0 when it has none, the empty Series
    included. *)
Theorem num_extrema_never_sentinel (v : list float) :
  (v <> [] ->
   exists kmax kmin,
     Dispatch.num_maxima (Ndarray v) = Ok (PyInt kmax)
     /\ Dispatch.num_minima (Ndarray v) = Ok (PyInt kmin)
     /\ 0 <= kmax <= Z.of_nat (length v) /\ 0 <= kmin <= Z.of_nat (length v)
     /\ (In nan v -> kmax = 0 /\ kmin = 0)
     /\ (Forall (fun a => PrimFloat.is_nan a = false) v -> 1 <= kmax /\ 1 <= kmin))
  /\ (exists kmax kmin,
        Dispatch.num_maxima (Series v) = Ok (PyInt kmax)
        /\ Dispatch.num_minima (Series v) = Ok (PyInt kmin)
        /\ 0 <= kmax <= Z.of_nat (length v) /\ 0 <= kmin <= Z.of_nat (length v)
        /\ (Exists (fun a => PrimFloat.is_nan a = false) v -> 1 <= kmax /\ 1 <= kmin)
        /\ (Forall (fun a => PrimFloat.is_nan a = true) v -> kmax = 0 /\ kmin = 0)).
Proof.
  unfold Dispatch.num_maxima, Dispatch.num_minima, Dispatch.np_max, Dispatch.np_min.
  cbn [values_of]. split.
  - destruct v as [|a v]; [intros H; contradiction H; reflexivity|]. intros _.
    unfold Np.max, Np.min. cbn [mbind result_bind]. rewrite !eqb_nan_r. cbn [negb].
    eexists _, _. split; [reflexivity|]. split; [reflexivity|].
    split; [apply count_equal_range|]. split; [apply count_equal_range|]. split.
    + intros Hin.
      assert (Hmax : PrimFloat.is_nan (fold_left Np.maximum v a) = true).
      { destruct Hin as [->|Hin]; [apply maximum_nan_stays; reflexivity|].
        apply maximum_nan_found, Hin. }
      assert (Hmin : PrimFloat.is_nan (fold_left Np.minimum v a) = true).
      { destruct Hin as [->|Hin]; [apply minimum_nan_stays; reflexivity|].
        apply minimum_nan_found, Hin. }
      rewrite !count_equal_nan by assumption. split; reflexivity.
    + intros Hall.
      destruct (maximum_found v a Hall) as [Hin Hn].
      destruct (minimum_found v a Hall) as [Hin' Hn'].
      split; apply count_equal_found; assumption.
  - cbn [mbind result_bind]. rewrite !eqb_nan_r. cbn [negb].
    eexists _, _. split; [reflexivity|]. split; [reflexivity|].
    split; [apply count_equal_range|]. split; [apply count_equal_range|]. split.
    + intros Hex. unfold Pd.max, Pd.min.
      destruct (skipna_found nanmax nanmax_missing nanmax_first nanmax_choice
                  v nan eq_refl Hex) as [Hin Hn].
      destruct (skipna_found Pd.nanmin nanmin_missing nanmin_first nanmin_choice
                  v nan eq_refl Hex) as [Hin' Hn'].
      split; apply count_equal_found; assumption.
    + intros Hall. unfold Pd.max, Pd.min.
      rewrite !count_equal_nan; [split; reflexivity| |].
      * exact (skipna_none Pd.nanmin nanmin_missing v nan eq_refl Hall).
      * exact (skipna_none nanmax nanmax_missing v nan eq_refl Hall).
Qed.

Lemma num_extrema_never_sentinel_witness :
  (exists kmax kmin,
     Dispatch.num_maxima (Ndarray [1; nan; 3]%float) = Ok (PyInt kmax)
     /\ Dispatch.num_minima (Ndarray [1; nan; 3]%float) = Ok (PyInt kmin)
     /\ 0 <= kmax <= 3 /\ 0 <= kmin <= 3
     /\ (In nan [1; nan; 3]%float -> kmax = 0 /\ kmin = 0)
     /\ (Forall (fun a => PrimFloat.is_nan a = false) [1; nan; 3]%float ->
         1 <= kmax /\ 1 <= kmin))
  /\ (exists kmax kmin,
        Dispatch.num_maxima (Series [1; nan; 3]%float) = Ok (PyInt kmax)
        /\ Dispatch.num_minima (Series [1; nan; 3]%float) = Ok (PyInt kmin)
        /\ 0 <= kmax <= 3 /\ 0 <= kmin <= 3
        /\ (Exists (fun a => PrimFloat.is_nan a = false) [1; nan; 3]%float ->
            1 <= kmax /\ 1 <= kmin)
        /\ (Forall (fun a => PrimFloat.is_nan a = true) [1; nan; 3]%float ->
            kmax = 0 /\ kmin = 0)).
Proof.
  destruct (num_extrema_never_sentinel [1; nan; 3]%float) as [Harray Hseries].
  split; [apply Harray; discriminate|exact Hseries].
Defined.

(** The same values as an array and as a Series: the array has its NaN for
    greatest and for least element, which equals nothing; the Series has
    3 and 1, each once. *)
Example num_extrema_example :
  Dispatch.num_maxima (Ndarray [1; nan; 3]%float) = Ok (PyInt 0)
  /\ Dispatch.num_minima (Ndarray [1; nan; 3]%float) = Ok (PyInt 0)
  /\ Dispatch.num_maxima (Series [1; nan; 3]%float) = Ok (PyInt 1)
  /\ Dispatch.num_minima (Series [1; nan; 3]%float) = Ok (PyInt 1)
  /\ Dispatch.num_maxima (Series [2; 1; 2]%float) = Ok (PyInt 2).
Proof. repeat split; vm_compute; reflexivity. Qed.

(** X12. [num_maxima] and [num_minima] raise on the empty array and on
    nothing else: the error is that of numpy's reduction of an array
    without elements. On a Series they never raise; the empty Series has
    the count 0. *)
Theorem num_extrema_raise_on_empty_array (x : timeseries) :
  (Dispatch.num_maxima x = Raise ValueError <-> x = Ndarray [])
  /\ (Dispatch.num_minima x = Raise ValueError <-> x = Ndarray [])
  /\ (is_ok (Dispatch.num_maxima x) = false <-> x = Ndarray [])
  /\ (is_ok (Dispatch.num_minima x) = false <-> x = Ndarray [])
  /\ Dispatch.num_maxima (Series []) = Ok (PyInt 0)
  /\ Dispatch.num_minima (Series []) = Ok (PyInt 0).
Proof.
  destruct x as [[|a v]|v]; cbn;
    repeat split; try reflexivity; try discriminate.
Qed.

(** X13. The number of states of a series that is not empty is at least 1 and
    at most the length of the series. *)
Theorem num_states_range (x : list float) :
  x <> [] ->
  exists k, num_states x = Ok (PyInt k) /\ 1 <= k <= Z.of_nat (length x).
Proof.
  intros Hx. unfold num_states. eexists. split; [reflexivity|].
  assert (H : (1 <= length (Np.unique x) <= length x)%nat).
  { induction x as [|a x IH]; [contradiction Hx; reflexivity|].
    cbn [Np.unique]. destruct x as [|b x'].
    - cbn. lia.
    - assert (Hb : b :: x' <> []) by discriminate. specialize (IH Hb).
      destruct (existsb (PrimFloat.eqb a) (b :: x')); cbn [length] in *; lia. }
  lia.
Qed.

Lemma num_states_range_witness :
  exists k, num_states [1; 2; 1; 2; 2]%float = Ok (PyInt k) /\ 1 <= k <= 5.
Proof. apply (num_states_range [1; 2; 1; 2; 2]%float). discriminate. Defined.

Lemma changes_range (bs : list bool) :
  0 <= changes bs /\ (bs <> [] -> changes bs <= Z.of_nat (length bs) - 1).
Proof.
  induction bs as [|a bs IH]; [split; [reflexivity|intros H; contradiction H; reflexivity]|].
  destruct bs as [|b bs']; [cbn; split; [lia|intros _; lia]|].
  destruct IH as [IH1 IH2]. specialize (IH2 ltac:(discriminate)).
  change (changes (a :: b :: bs')) with ((if Bool.eqb a b then 0 else 1) + changes (b :: bs')).
  cbn [length] in *. destruct (Bool.eqb a b); (split; [lia|intros _; lia]).
Qed.

(** X14. A series crosses its mean fewer times than it has elements: the
    number of crossings is not negative and, on a series that is not
    empty, at most its length less one. *)
Theorem number_crossing_mean_range (x : list float) :
  exists k,
    number_crossing_mean x = Ok (PyInt k)
    /\ 0 <= k /\ (x <> [] -> k <= Z.of_nat (length x) - 1).
Proof.
  unfold number_crossing_mean, number_crossing_m. eexists. split; [reflexivity|].
  pose proof (changes_range (map (fun v => PrimFloat.ltb (Np.mean x) v) x)) as [H1 H2].
  split; [exact H1|]. intros Hx. rewrite length_map in H2. apply H2.
  destruct x; [contradiction Hx; reflexivity|discriminate].
Qed.

(** ** The window assigner does not check the format *)

Lemma series_apply_ok_length {A B} (h : A -> B) (xs : list A) :
  exists ys, series_apply (fun x => Ok (h x)) xs = Ok ys /\ length ys = length xs.
Proof. exists (map h xs). split; [apply series_apply_pure|apply length_map]. Qed.

Lemma series_apply_raises {A B} (f : A -> result B) (xs : list A) (x : A) (e : exn) :
  In x xs -> f x = Raise e ->
  (forall y e', f y = Raise e' -> e' = e) ->
  series_apply f xs = Raise e.
Proof.
  intros Hin Hx Hall. induction xs as [|y xs IH]; [contradiction Hin|].
  cbn [series_apply]. destruct (f y) as [b|e'] eqn:Ey.
  - cbn [mbind result_bind]. destruct Hin as [->|Hin]; [rewrite Hx in Ey; discriminate Ey|].
    rewrite (IH Hin). reflexivity.
  - cbn [mbind result_bind]. rewrite (Hall y e' Ey). reflexivity.
Qed.

(** X15. The assigner performs no check of the format. At the levels minute,
    ten minutes, one hour and one day it returns an identifier for every
    string of every series, malformed or not. At the fifteen-minute level
    a series with one timestamp whose characters 14 and 15 are not an
    integer makes the whole call raise [ValueError]. *)
Theorem calc_aggregation_datetime_unchecked (datetimes : list string) :
  (forall g, g <> Minutes15 ->
     exists ws, calc_aggregation_datetime datetimes (aggregation_of g) = Ok ws
                /\ length ws = length datetimes)
  /\ (forall t, In t datetimes ->
        PyStr.int (slice t (Some 14) (Some 16)) = Raise ValueError ->
        calc_aggregation_datetime datetimes (aggregation_of Minutes15) = Raise ValueError).
Proof.
  split.
  - intros g Hg. destruct g; try (contradiction Hg; reflexivity);
      unfold calc_aggregation_datetime; cbn [aggregation_of String.eqb Ascii.eqb Bool.eqb].
    + apply series_apply_ok_length.
    + apply series_apply_ok_length.
    + apply series_apply_ok_length.
    + rewrite series_apply_pure. cbn [mbind result_bind]. eexists. split; [reflexivity|].
      unfold series_replace. rewrite !length_map. reflexivity.
  - intros t Hin Ht. unfold calc_aggregation_datetime.
    cbn [aggregation_of String.eqb Ascii.eqb Bool.eqb].
    apply (series_apply_raises _ _ t); [exact Hin|rewrite Ht; reflexivity|].
    intros y e' Hy. unfold PyStr.int in Hy.
    destruct (match PyStr.strip _ with [] => None | _ => _ end); cbn in Hy;
      [discriminate Hy|]. injection Hy as <-. reflexivity.
Qed.

Lemma calc_aggregation_datetime_unchecked_witness :
  exists ws, calc_aggregation_datetime ["garbage"; ""] (aggregation_of Minute) = Ok ws
             /\ length ws = length ["garbage"; ""].
Proof.
  apply (proj1 (calc_aggregation_datetime_unchecked ["garbage"; ""]) Minute). discriminate.
Defined.

(** ** A missing reading *)

Lemma leb_nan_l (thr : float) : PrimFloat.leb (PrimFloat.abs nan) thr = false.
Proof.
  change (PrimFloat.abs nan) with nan. rewrite FloatAxioms.leb_spec.
  change (Prim2SF nan) with S754_nan. reflexivity.
Qed.

(** X16. On a table without [I2_A] a record whose current is missing (NaN) is
    never classified as off, whatever the threshold: pruning keeps it. *)
Theorem machine_off_missing_reading_is_on (data : DataFrame) (thr : float)
    (mask : list bool) (i : nat) (r : label * record) :
  "I2_A" ∉ columns data ->
  machine_off data thr = Ok mask ->
  rows data !! i = Some r ->
  cell_at r.2 (if has_column "IAVR_A" data then "IAVR_A" else "I1_A") = Num nan ->
  mask !! i = Some false.
Proof.
  intros H2 Hm Hr Hc. unfold machine_off in Hm. rewrite (has_column_false _ _ H2) in Hm.
  cbv zeta in Hm. apply single_channel_mask in Hm. destruct Hm as (xs & Hg & ->).
  unfold get_column in Hg. destruct (has_column _ data) eqn:Hh in Hg; [|discriminate Hg].
  injection Hg as Hg.
  assert (Hx : xs !! i = Some nan).
  { apply (f_equal (fun l => l !! i)) in Hg. rewrite !list_lookup_fmap, Hr in Hg.
    cbn [fmap option_fmap option_map] in Hg. rewrite Hc in Hg.
    destruct (xs !! i) as [x|]; [|discriminate Hg]. cbn in Hg. injection Hg as <-.
    reflexivity. }
  rewrite list_lookup_fmap, Hx. cbn. rewrite leb_nan_l. reflexivity.
Qed.

(** A table whose second record has no current. *)
Definition missing_reading_example : DataFrame :=
  {| columns := ["SensorDateTime"; "I1_A"];
     rows := [(Pos 0, list_to_map [("SensorDateTime", Str "2017-10-01T00:07:23.500+02");
                                   ("I1_A", Num 0%float)]);
              (Pos 1, list_to_map [("SensorDateTime", Str "2017-10-01T00:07:28.500+02")])] |}.

Lemma machine_off_missing_reading_is_on_witness :
  [true; false] !! 1%nat = Some false.
Proof.
  apply (machine_off_missing_reading_is_on missing_reading_example 100%float [true; false]
           1%nat (Pos 1, list_to_map [("SensorDateTime", Str "2017-10-01T00:07:28.500+02")])).
  - cbn. intros H. repeat (apply elem_of_cons in H; destruct H as [H|H]; [discriminate H|]).
    apply elem_of_nil in H. exact H.
  - vm_compute. reflexivity.
  - reflexivity.
  - vm_compute. reflexivity.
Defined.

(** ** How many rows pruning keeps *)

Lemma boolean_index_count (mask : list bool) (rs : list (label * record)) :
  length mask = length rs ->
  (length (boolean_index (map negb mask) rs) + length (List.filter (fun b => b) mask)
   = length rs)%nat.
Proof.
  revert rs. induction mask as [|b mask IH]; intros [|r rs] Hlen; try discriminate Hlen;
    [reflexivity|].
  injection Hlen as Hlen. specialize (IH rs Hlen). destruct b; cbn in *; lia.
Qed.

Lemma boolean_index_all (mask : list bool) (rs : list (label * record)) :
  length mask = length rs -> Forall (fun b => b = false) mask ->
  boolean_index (map negb mask) rs = rs.
Proof.
  intros Hlen H. revert rs Hlen.
  induction H as [|b mask -> _ IH]; intros [|r rs] Hlen; try discriminate Hlen;
    [reflexivity|].
  cbn. f_equal. apply IH. injection Hlen as ->. reflexivity.
Qed.

(** X17. When the classification succeeds on a well-formed table without a
    [machine_off] column, the rows kept and the records classified off
    (the number the call logs as removed) add up to the rows of the
    table; and when no record is off the table returned is the table
    passed, as it was before the call. *)
Theorem remove_machine_off_data_counts (data : DataFrame) (thr : float) (mask : list bool) :
  "machine_off" ∉ columns data ->
  wf_frame data ->
  machine_off data thr = Ok mask ->
  exists data' kept,
    remove_machine_off_data data thr = Ok (data', kept)
    /\ (length (rows kept) + length (List.filter (fun b => b) mask) = length (rows data))%nat
    /\ (Forall (fun b => b = false) mask -> kept = data).
Proof.
  intros Hno Hwf Hmask. pose proof (machine_off_length _ _ _ Hmask) as Hlen.
  destruct (remove_machine_off_data_result data thr mask Hno Hwf Hmask) as (data' & Hr).
  eexists _, _. split; [exact Hr|]. cbn [rows]. split.
  - apply boolean_index_count, Hlen.
  - intros Hall. rewrite boolean_index_all by assumption. destruct data. reflexivity.
Qed.

Lemma remove_machine_off_data_counts_witness :
  exists data' kept,
    remove_machine_off_data two_phase_example 0%float = Ok (data', kept)
    /\ (length (rows kept) + length (List.filter (fun b => b) [false; true])
        = length (rows two_phase_example))%nat
    /\ (Forall (fun b => b = false) [false; true] -> kept = two_phase_example).
Proof.
  apply (remove_machine_off_data_counts two_phase_example 0%float [false; true]).
  - cbn. intros H. repeat (apply elem_of_cons in H; destruct H as [H|H]; [discriminate H|]).
    apply elem_of_nil in H. exact H.
  - apply wf_frame_check. vm_compute. reflexivity.
  - vm_compute. reflexivity.
Defined.
